(** * RES_measuring_point: a shallow embedding of [RESMeasuringPoint]

    The Python class pairs the historical power readings of one
    renewable-energy installation with the weather observed at a
    meteorological station.  Every method of the class is embedded below,
    followed by the properties established about it.

    Conventions of the embedding.
    - A [pandas.Timestamp] is its integer count of nanoseconds since
      1970-01-01T00:00, a [Timedelta] a signed count of nanoseconds.
    - Python floats are exact numbers, rounding is not modelled:
      coordinates, which go through [sin], [cos] and [asin], are reals;
      measurements, which only go through field operations, are rationals.
    - A raised exception is the left injection of a sum; code that also
      touches the temporary directory threads it as explicit state, and the
      state reached when an exception escapes is part of the result.
    - The outside world (the two spreadsheets, the web server, the zip and
      csv decoders) is a record of functions, [World]. *)

From Stdlib Require Import ZArith QArith Reals Lra Lia List String Ascii.
From Stdlib Require Import DecimalString.
From Stdlib Require Lqa.
From stdpp Require Import base option list sorting gmap strings.

Local Open Scope Z_scope.

(** ** Exceptions and the two monads of the embedding *)

Inductive exn : Type :=
  | ValueError (msg : string)
  | IndexError
  | AttributeError
  | FileNotFoundError (path : string)
  | FileExistsError (path : string)
  | IsADirectoryError (path : string)
  | NotADirectoryError (path : string)
  | KeyError
  | BadZipFile
  | ParserError.

(** A computation that may raise. *)
Definition result (A : Type) : Type := exn + A.

#[global] Instance result_ret : MRet result := fun A x => inr x.
#[global] Instance result_bind : MBind result := fun A B f m =>
  match m with
  | inl e => inl e
  | inr x => f x
  end.

Definition raise {A : Type} (e : exn) : result A := inl e.

(** A computation over a mutable store [S] that may raise; the store
    reached at the raise is kept. *)
Definition io (S A : Type) : Type := S -> result A * S.

#[global] Instance io_ret {S} : MRet (io S) := fun A x s => (inr x, s).
#[global] Instance io_bind {S} : MBind (io S) := fun A B f m s =>
  match m s with
  | (inl e, s') => (inl e, s')
  | (inr x, s') => f x s'
  end.

Definition io_raise {S A : Type} (e : exn) : io S A := fun s => (inl e, s).
Definition io_modify {S : Type} (f : S -> S) : io S unit := fun s => (inr tt, f s).
Definition io_lift {S A : Type} (r : result A) : io S A := fun s => (r, s).

(** [for x in xs: body x], collecting what each iteration appends. *)
Fixpoint io_for {S A B : Type} (xs : list A) (body : A -> io S B) : io S (list B) :=
  match xs with
  | [] => mret []
  | x :: xs' => y ← body x; ys ← io_for xs' body; mret (y :: ys)
  end.

(** ** Python built-ins *)

(** [range(a, b)] *)
Definition py_range (a b : Z) : list Z :=
  map (fun i : nat => a + Z.of_nat i) (seq 0 (Z.to_nat (b - a))).

(** [str(n)] and [f'{n}'] for an integer. *)
Definition str_int (n : Z) : string := NilZero.string_of_int (Z.to_int n).

(** [xs[0]], [xs[1]], [xs[-1]] of [DataFrame.iloc]: out of range raises. *)
Definition iloc {A : Type} (xs : list A) (i : nat) : result A :=
  match xs !! i with
  | Some x => mret x
  | None => raise IndexError
  end.

Definition iloc_last {A : Type} (xs : list A) : result A :=
  match last xs with
  | Some x => mret x
  | None => raise IndexError
  end.

(** ** Timestamps *)

Module Clock.

Abbreviation Timestamp := Z.
Abbreviation Timedelta := Z.

Definition NS_PER_SEC : Z := 1000000000.
Definition NS_PER_DAY : Z := 86400 * NS_PER_SEC.

(** Days since the epoch of the day a timestamp falls in. *)
Definition days_of (t : Timestamp) : Z := t / NS_PER_DAY.

(** Proleptic Gregorian year of a day count (days since 1970-01-01). *)
Definition civil_year (days : Z) : Z :=
  let z := days + 719468 in
  let era := z / 146097 in
  let doe := z - era * 146097 in
  let yoe := (doe - doe / 1460 + doe / 36524 - doe / 146096) / 365 in
  let doy := doe - (365 * yoe + yoe / 4 - yoe / 100) in
  let mp := (5 * doy + 2) / 153 in
  let m := if mp <? 10 then mp + 3 else mp - 9 in
  yoe + era * 400 + (if m <=? 2 then 1 else 0).

(** [Timestamp.year] *)
Definition year (t : Timestamp) : Z := civil_year (days_of t).

(** Day count of a calendar date; used to write timestamps down. *)
Definition days_from_civil (y m d : Z) : Z :=
  let y' := if m <=? 2 then y - 1 else y in
  let era := y' / 400 in
  let yoe := y' - era * 400 in
  let mp := if 2 <? m then m - 3 else m + 9 in
  let doy := (153 * mp + 2) / 5 + d - 1 in
  let doe := yoe * 365 + yoe / 4 - yoe / 100 + doy in
  era * 146097 + doe - 719468.

Definition datetime (y m d hh mm ss : Z) : Timestamp :=
  (days_from_civil y m d * 86400 + hh * 3600 + mm * 60 + ss) * NS_PER_SEC.

(** Month, from 1 to 12, and day of the month of a day count: the rest of
    the conversion that [civil_year] starts. *)
Definition civil_month (days : Z) : Z :=
  let z := days + 719468 in
  let era := z / 146097 in
  let doe := z - era * 146097 in
  let yoe := (doe - doe / 1460 + doe / 36524 - doe / 146096) / 365 in
  let doy := doe - (365 * yoe + yoe / 4 - yoe / 100) in
  let mp := (5 * doy + 2) / 153 in
  if mp <? 10 then mp + 3 else mp - 9.

Definition civil_day (days : Z) : Z :=
  let z := days + 719468 in
  let era := z / 146097 in
  let doe := z - era * 146097 in
  let yoe := (doe - doe / 1460 + doe / 36524 - doe / 146096) / 365 in
  let doy := doe - (365 * yoe + yoe / 4 - yoe / 100) in
  let mp := (5 * doy + 2) / 153 in
  doy - (153 * mp + 2) / 5 + 1.

(** [Timestamp.month], [Timestamp.day] *)
Definition month (t : Timestamp) : Z := civil_month (days_of t).
Definition day (t : Timestamp) : Z := civil_day (days_of t).

(** [Timestamp.dayofweek]: Monday is 0; 1970-01-01 was a Thursday. *)
Definition dayofweek (t : Timestamp) : Z := (days_of t + 3) mod 7.

(** [Timestamp.days_in_month] *)
Definition days_in_month (t : Timestamp) : Z :=
  let y := year t in
  let m := month t in
  if m =? 12 then 31 else days_from_civil y (m + 1) 1 - days_from_civil y m 1.

(** [Timestamp.normalize()]: midnight of the same day. *)
Definition normalize (t : Timestamp) : Timestamp := t - t mod NS_PER_DAY.

(** [int(td.total_seconds())]: [int] truncates towards zero. *)
Definition total_seconds_int (d : Timedelta) : Z := Z.quot d NS_PER_SEC.

Definition seconds (n : Z) : Timedelta := n * NS_PER_SEC.

End Clock.

(** ** The tables *)

(** One row of the historical power sheet, columns [datetime] and [power]. *)
Record PowerSample : Type := {
  p_datetime : Clock.Timestamp;
  power : Q
}.

(** The five weather columns kept from an archive. *)
Inductive wfield : Type := Clouds | WindDir | WindSpeed | Temp | Sun.

(** One row of a weather frame: the [datetime] index and the five columns,
    each cell a number or NaN ([None]). *)
Record WeatherObservation : Type := {
  w_datetime : Clock.Timestamp;
  clouds : option Q;
  wind_dir : option Q;
  wind_speed : option Q;
  temp : option Q;
  sun : option Q
}.

Definition cell (f : wfield) (r : WeatherObservation) : option Q :=
  match f with
  | Clouds => clouds r
  | WindDir => wind_dir r
  | WindSpeed => wind_speed r
  | Temp => temp r
  | Sun => sun r
  end.

(** One row of the station registry; [code] is its first column. *)
Record StationRecord : Type := {
  code : string;
  s_lat : R;
  s_lon : R
}.

(** One row of the frame returned by [data_collector]. *)
Record FusedRecord : Type := {
  f_datetime : Clock.Timestamp;
  f_power : Q;
  f_clouds : option Q;
  f_wind_dir : option Q;
  f_wind_speed : option Q;
  f_temp : option Q;
  f_sun : option Q;
  f_res_type : string;
  f_name : string;
  f_installed_power : Q
}.

(** ** The pandas operations the class calls

    Each definition follows the documented contract of the operation.
    [resample(rule).interpolate()] goes through [Resampler._upsample], whose
    two ways of building the resampled frame give different frames; both
    are embedded. *)

Module Pandas.

(** [Series.idxmin()] over a default [RangeIndex]: the position of the
    first occurrence of the minimum; an empty series raises. *)
Fixpoint idxmin_from {K : Type} (ltb : K -> K -> bool)
    (best_i : nat) (best : K) (i : nat) (s : list K) : nat :=
  match s with
  | [] => best_i
  | k :: s' =>
      if ltb k best then idxmin_from ltb i k (S i) s'
      else idxmin_from ltb best_i best (S i) s'
  end.

Definition idxmin {K : Type} (ltb : K -> K -> bool) (s : list K) : result nat :=
  match s with
  | [] => raise (ValueError "attempt to get argmin of an empty sequence")
  | k :: s' => mret (idxmin_from ltb 0%nat k 1%nat s')
  end.

(** [pd.concat(dfs)]: the frames one after the other; an empty list of
    frames raises. *)
Definition concat {A : Type} (dfs : list (list A)) : result (list A) :=
  match dfs with
  | [] => raise (ValueError "No objects to concatenate")
  | _ => mret (List.concat dfs)
  end.

(** The labels of [df.resample(rule)] for a rule of [freq] nanoseconds,
    with the defaults [closed='left'], [label='left'] and
    [origin='start_day']: the multiples of [freq] counted from midnight
    of the earliest day, from the last one not after the earliest index
    entry to the last one not after the latest entry. *)
Definition grid (freq : Z) (index : list Clock.Timestamp) : list Clock.Timestamp :=
  match index with
  | [] => []
  | t :: ts =>
      let lo := foldr Z.min t ts in
      let hi := foldr Z.max t ts in
      let origin := Clock.normalize lo in
      let first := lo - (lo - origin) mod freq in
      map (fun k : nat => first + Z.of_nat k * freq)
          (seq 0 (Z.to_nat ((hi - first) / freq + 1)))
  end.

Definition nan_row (t : Clock.Timestamp) : WeatherObservation :=
  {| w_datetime := t; clouds := None; wind_dir := None;
     wind_speed := None; temp := None; sun := None |}.

(** [df.reindex(index)]: the row of [df] labelled [t] where there is one,
    a row of NaN elsewhere. *)
Definition reindex (df : list WeatherObservation) (index : list Clock.Timestamp)
    : list WeatherObservation :=
  map (fun t =>
         match List.find (fun r => w_datetime r =? t) df with
         | Some r => r
         | None => nan_row t
         end) index.

(** The value on the straight line from [a] (at position 0) to [b] (at
    position [n]) at position [k]. *)
Definition lerp (a b : Q) (k n : nat) : Q :=
  Qred (a + (b - a) * (Z.of_nat k # Pos.of_nat n)).

(** Distance to, and value of, the first number of a column. *)
Fixpoint next_valid (col : list (option Q)) : option (nat * Q) :=
  match col with
  | [] => None
  | Some v :: _ => Some (0%nat, v)
  | None :: col' =>
      match next_valid col' with
      | Some (d, v) => Some (S d, v)
      | None => None
      end
  end.

(** [Series.interpolate(method='linear', limit_direction='forward')] on one
    column: the rows count as equally spaced; a NaN between two numbers
    lies on the line through them, a NaN after the last number repeats it,
    a NaN before the first number stays.  [prev] is the last number seen
    and how many rows back it is. *)
Fixpoint interpolate_from (prev : option (Q * nat)) (col : list (option Q))
    : list (option Q) :=
  match col with
  | [] => []
  | Some v :: col' => Some v :: interpolate_from (Some (v, 1%nat)) col'
  | None :: col' =>
      let filled :=
        match prev with
        | None => None
        | Some (a, back) =>
            match next_valid col' with
            | None => Some a
            | Some (fwd, b) => Some (lerp a b back (back + S fwd))
            end
        end in
      filled :: interpolate_from
                  (match prev with
                   | None => None
                   | Some (a, back) => Some (a, S back)
                   end) col'
  end.

Definition interpolate_1d (col : list (option Q)) : list (option Q) :=
  interpolate_from None col.

(** [DataFrame.interpolate()]: every column on its own. *)
Definition interpolate (df : list WeatherObservation) : list WeatherObservation :=
  let col f := interpolate_1d (map (cell f) df) in
  imap (fun i r =>
          {| w_datetime := w_datetime r;
             clouds := default None (col Clouds !! i);
             wind_dir := default None (col WindDir !! i);
             wind_speed := default None (col WindSpeed !! i);
             temp := default None (col Temp !! i);
             sun := default None (col Sun !! i) |}) df.

(** The order in which a resampler sees the rows: it sorts its axis. *)
Definition earlier (a b : WeatherObservation) : Prop := w_datetime a <= w_datetime b.

#[global] Instance earlier_dec : RelDecision earlier :=
  fun a b => Z_le_dec (w_datetime a) (w_datetime b).

Definition sort_index (df : list WeatherObservation) : list WeatherObservation :=
  merge_sort earlier df.

(** Whether the entries after [t] follow it and one another at distance
    [d]. *)
Fixpoint spaced (d : Z) (t : Z) (ts : list Z) : bool :=
  match ts with
  | [] => true
  | t' :: ts' => (t' - t =? d) && spaced d t' ts'
  end.

(** The distance of consecutive entries when [unique_deltas] finds a
    single one. *)
Definition unique_delta (xs : list Z) : option Z :=
  match xs with
  | x0 :: x1 :: rest => if spaced (x1 - x0) x1 rest then Some (x1 - x0) else None
  | _ => None
  end.

(** [month_position_check]: whether all entries fall on the last day of
    their month ('ce'), on its last business day ('be'), on its first day
    ('cs') or on its first business day ('bs'). *)
Definition month_position_check (ax : list Clock.Timestamp) : option string :=
  let calendar_start t := Clock.day t =? 1 in
  let business_start t :=
    (Clock.day t =? 1) || ((Clock.day t <=? 3) && (Clock.dayofweek t =? 0)) in
  let calendar_end t := Clock.day t =? Clock.days_in_month t in
  let business_end t :=
    (Clock.day t =? Clock.days_in_month t)
    || ((Clock.days_in_month t - Clock.day t <? 3) && (Clock.dayofweek t =? 4)) in
  if forallb calendar_end ax then Some "ce"
  else if forallb business_end ax then Some "be"
  else if forallb calendar_start ax then Some "cs"
  else if forallb business_start ax then Some "bs"
  else None.

(** [to_offset(ax.inferred_freq)] of a sorted axis, as far as the
    comparison with the [Tick] of a rule can tell: the nanoseconds of the
    inferred frequency when it is a multiple of days, hours, minutes,
    seconds or a fraction of a second, and [None] when no frequency is
    inferred or the one inferred is an alias of the calendar.  Fewer than
    three entries, repeated entries and unequal distances infer nothing
    that compares equal to a [Tick]; a distance of whole days is named by
    year, quarter or month when the entries keep their place in the month
    at a single distance in months, by week when it is a multiple of seven
    days, and by days otherwise. *)
Definition inferred_tick (ax : list Clock.Timestamp) : option Z :=
  if (length ax <? 3)%nat then None
  else
    match unique_delta ax with
    | None => None
    | Some d =>
        if d <=? 0 then None
        else if d mod Clock.NS_PER_DAY =? 0 then
          let mdiffs := unique_delta (map (fun t => Clock.year t * 12 + Clock.month t) ax) in
          match mdiffs, month_position_check ax with
          | Some _, Some _ => None
          | _, _ => if (d / Clock.NS_PER_DAY) mod 7 =? 0 then None else Some d
          end
        else Some d
    end.

(** The test of [Resampler._upsample] for equal sampling: [limit is None
    and to_offset(ax.inferred_freq) == self.freq and len(obj) ==
    len(res_index)], on the sorted frame. *)
Definition equal_sampling (freq : Z) (obj : list WeatherObservation) : bool :=
  bool_decide (inferred_tick (map w_datetime obj) = Some freq)
  && (length obj =? length (grid freq (map w_datetime obj)))%nat.

(** [result = obj.copy(); result.index = res_index] *)
Definition set_index (obj : list WeatherObservation) (index : list Clock.Timestamp)
    : list WeatherObservation :=
  zip_with (fun r t =>
              {| w_datetime := t; clouds := clouds r; wind_dir := wind_dir r;
                 wind_speed := wind_speed r; temp := temp r; sun := sun r |})
           obj index.

(** [Resampler._upsample('asfreq')] for a rule of [freq] nanoseconds: a
    frame that already has the frequency of the rule keeps its rows and
    gets the labels of the rule as its index; any other frame is
    reindexed to the labels, which needs unique labels. *)
Definition upsample (freq : Z) (df : list WeatherObservation)
    : result (list WeatherObservation) :=
  let obj := sort_index df in
  let res_index := grid freq (map w_datetime obj) in
  if equal_sampling freq obj then mret (set_index obj res_index)
  else if bool_decide (NoDup (map w_datetime obj)) then mret (reindex obj res_index)
  else raise (ValueError "cannot reindex on an axis with duplicate labels").

(** [df.resample(str(n) + 'S').interpolate()]: the frame is upsampled to
    the labels of the rule, then the NaN cells are interpolated.  A rule
    needs a positive length. *)
Definition resample_interpolate (n : Z) (df : list WeatherObservation)
    : result (list WeatherObservation) :=
  if n <=? 0 then raise (ValueError "resample needs a positive frequency")
  else
    frame ← upsample (Clock.seconds n) df;
    mret (interpolate frame).

(** [pd.merge(left, right, on='datetime')]: an inner join; the pairs of a
    left row and a right row with equal keys.  They are listed in the order
    of the left rows; no statement below depends on the order. *)
Definition merge (left : list PowerSample) (right : list WeatherObservation)
    : list (PowerSample * WeatherObservation) :=
  flat_map (fun s =>
              map (pair s)
                  (List.filter (fun r => w_datetime r =? p_datetime s) right))
           left.

End Pandas.

(** ** The outside world *)

(** What [requests.get] hands back. *)
Record Response : Type := {
  ok : bool;
  status_code : Z;
  content : string
}.

(** A frame as [pd.read_csv(..., header=None, parse_dates=..., index_col=...)]
    returns it: which integer column labels exist, and per row the
    [datetime] index entry and the cell under each label. *)
Record RawFrame : Type := {
  raw_columns : list Z;
  raw_rows : list (Clock.Timestamp * (Z -> option Q))
}.

Record World : Type := {
  (** [pd.read_excel(WEATHER_STATION_PATH)] *)
  read_excel_stations : result (list StationRecord);
  (** [pd.read_excel(path, skiprows=1, names=[...])] with [datetime]
      converted by [pd.to_datetime] *)
  read_excel_hist : string -> result (list PowerSample);
  (** [requests.get(url, allow_redirects=True, stream=True)] *)
  requests_get : string -> Response;
  (** the members (name, bytes) of a zip archive; [None] when the bytes are
      not a zip archive *)
  zip_members : string -> option (list (string * string));
  (** the frame [pd.read_csv] parses out of the bytes of a file; [None]
      when parsing fails *)
  csv_frame : string -> option RawFrame
}.

(** The files on disk: path to bytes. *)
Abbreviation files := (gmap string string).

Definition WEATHER_STATION_PATH : string := "data_samples/Weather_stations_loc.xlsx".
Definition HISTORICAL_POWER_DATA_PATH : string := "data_samples/hist_data_both.xlsx".
Definition TMP_DATA_PATH : string := "tmp/".

Module Fs.

(** [with open(path, 'wb') as file: file.write(data)] *)
Definition write_file (path data : string) : io files unit :=
  io_modify (fun fs : files => <[path := data]> fs).

Definition read_file (path : string) : io files string :=
  fun fs : files =>
    match fs !! path with
    | Some data => (inr data, fs)
    | None => (inl (FileNotFoundError path), fs)
    end.

(** [os.remove(path)] *)
Definition remove (path : string) : io files unit :=
  fun fs : files =>
    match fs !! path with
    | Some _ => (inr tt, delete path fs)
    | None => (inl (FileNotFoundError path), fs)
    end.

(** [name.split('/')] *)
Fixpoint split_slash (name : string) : list string :=
  match name with
  | EmptyString => [EmptyString]
  | String c rest =>
      if Ascii.eqb c "/" then EmptyString :: split_slash rest
      else
        match split_slash rest with
        | [] => [String c EmptyString]
        | x :: xs => String c x :: xs
        end
  end.

(** ['/'.join(parts)] *)
Definition join_slash (parts : list string) : string :=
  match parts with
  | [] => EmptyString
  | x :: xs => foldl (fun acc y => acc +:+ "/" +:+ y) x xs
  end.

(** The parts of a member name that [ZipFile._extract_member] keeps: it
    drops the empty ones (so a leading slash and doubled slashes), [.] and
    [..]. *)
Definition kept_parts (name : string) : list string :=
  List.filter (fun x => negb (String.eqb x EmptyString || String.eqb x "." || String.eqb x ".."))
              (split_slash name).

(** The name under which a member is extracted. *)
Definition arcname (name : string) : string := join_slash (kept_parts name).

(** [ZipInfo.is_dir()]: the name of a directory entry ends in a slash. *)
Definition is_dir (name : string) : bool :=
  match rev (split_slash name) with
  | x :: _ :: _ => String.eqb x EmptyString
  | _ => false
  end.

(** Where a member is extracted to:
    [os.path.normpath(os.path.join(dir, arcname))], for a [dir] that ends
    in a slash; it is [dir] without the slash for a member without a
    name. *)
Definition target (dir name : string) : string :=
  if String.eqb (arcname name) EmptyString
  then String.substring 0 (String.length dir - 1) dir
  else dir +:+ arcname name.

(** The directories above the place a member is extracted to, each with
    the path that is made or opened inside it. *)
Definition parents (dir name : string) : list (string * string) :=
  map (fun k => (dir +:+ join_slash (take (S k) (kept_parts name)),
                 dir +:+ join_slash (take (S (S k)) (kept_parts name))))
      (seq 0 (pred (length (kept_parts name)))).

(** The store holds regular files only; a path is a directory of the store
    when a file lies below it. *)
Definition is_directory (fs : files) (path : string) : bool :=
  existsb (fun kv : string * string => String.prefix (path +:+ "/") kv.1) (map_to_list fs).

(** [ZipFile._extract_member]: the directories above the target are made
    where they are missing, which fails when one of them is a regular
    file; a directory entry makes a directory, which fails when a regular
    file has its name; any other member is written to its target, which
    fails when the target is a directory, the extraction directory itself
    for a member without a name.  A directory that is made holds no file
    yet and leaves the store as it is. *)
Definition extract_member (dir : string) (m : string * string) : io files unit :=
  fun fs : files =>
    let path := target dir m.1 in
    match List.find (fun a : string * string => bool_decide (is_Some (fs !! a.1)))
                    (parents dir m.1) with
    | Some a => (inl (NotADirectoryError a.2), fs)
    | None =>
        if is_dir m.1 then
          if negb (String.eqb (arcname m.1) EmptyString) && bool_decide (is_Some (fs !! path))
          then (inl (FileExistsError path), fs)
          else (inr tt, fs)
        else if String.eqb (arcname m.1) EmptyString || is_directory fs path
          then (inl (IsADirectoryError path), fs)
        else (inr tt, <[path := m.2]> fs)
    end.

(** [for zipinfo in members: self._extract_member(zipinfo, path, pwd)] *)
Fixpoint extract_members (dir : string) (members : list (string * string))
    : io files unit :=
  match members with
  | [] => mret tt
  | m :: members' => _ ← extract_member dir m; extract_members dir members'
  end.

(** [with zipfile.ZipFile(path, 'r') as z: z.extractall(dir)]; the members
    come in the order of the archive, under the names [ZipInfo.filename]
    gives them. *)
Definition extractall (w : World) (path dir : string) : io files unit :=
  data ← read_file path;
  match zip_members w data with
  | None => io_raise BadZipFile
  | Some members => extract_members dir members
  end.

(** [pd.read_csv(path, ...)] *)
Definition read_csv (w : World) (path : string) : io files RawFrame :=
  data ← read_file path;
  match csv_frame w data with
  | None => io_raise ParserError
  | Some df => mret df
  end.

End Fs.

(** ** Great-circle distance *)

Module Geo.

Local Open Scope R_scope.

(** [math.radians] *)
Definition radians (x : R) : R := x * (PI / 180).

Definition haversine (lon1 lat1 lon2 lat2 : R) : R :=
  let lon1 := radians lon1 in
  let lat1 := radians lat1 in
  let lon2 := radians lon2 in
  let lat2 := radians lat2 in
  let dlon := lon2 - lon1 in
  let dlat := lat2 - lat1 in
  let a := sin (dlat / 2) ^ 2 + cos lat1 * cos lat2 * sin (dlon / 2) ^ 2 in
  let c := 2 * asin (sqrt a) in
  let r := 6371 in
  c * r.

(** [x < y] on floats, as [idxmin] compares. *)
Definition Rltb (x y : R) : bool := if Rlt_dec x y then true else false.

End Geo.

(** ** The class *)

Record RESMeasuringPoint : Type := {
  self_name : string;
  self_installed_power : Q;
  self_hist_data_path : string;
  self_hist_df : list PowerSample;
  self_lon : R;
  self_lat : R;
  self_meteo_code : StationRecord;
  self_weather : list WeatherObservation;
  (** [None] while the attribute has not been assigned *)
  self_res_type : option string
}.

Definition with_res_type (v : string) (self : RESMeasuringPoint) : RESMeasuringPoint :=
  {| self_name := self_name self;
     self_installed_power := self_installed_power self;
     self_hist_data_path := self_hist_data_path self;
     self_hist_df := self_hist_df self;
     self_lon := self_lon self;
     self_lat := self_lat self;
     self_meteo_code := self_meteo_code self;
     self_weather := self_weather self;
     self_res_type := Some v |}.

(** The getter of the [res_type] property. *)
Definition res_type (self : RESMeasuringPoint) : result string :=
  match self_res_type self with
  | Some v => mret v
  | None => raise AttributeError
  end.

(** [res_type not in ('wind', 'pv')] *)
Definition not_in_wind_pv (v : string) : bool :=
  negb (String.eqb v "wind" || String.eqb v "pv").

(** The setter of the [res_type] property. *)
Definition res_type_setter (v : string) : io RESMeasuringPoint unit :=
  if not_in_wind_pv v then io_raise (ValueError "")
  else io_modify (with_res_type v).

Definition hist_df_parser (w : World) (hist_data_path : string) : result (list PowerSample) :=
  read_excel_hist w hist_data_path.

(** The distance column that [find_nearest_meteo_station] builds with
    [df.apply(lambda x: self.haversine(x['lat'], x['lon'], self.__lon,
    self.__lat), axis=1)]. *)
Definition station_key (lon lat : R) (x : StationRecord) : R :=
  Geo.haversine (s_lat x) (s_lon x) lon lat.

(** The selection of [find_nearest_meteo_station] on the frame read from the
    registry: [df.iloc[<distance column>.idxmin()]]. *)
Definition nearest_in (df : list StationRecord) (lon lat : R) : result StationRecord :=
  i ← Pandas.idxmin Geo.Rltb (map (station_key lon lat) df);
  iloc df i.

Definition find_nearest_meteo_station (w : World) (lon lat : R) : result StationRecord :=
  df ← read_excel_stations w;
  nearest_in df lon lat.

(** [sampling_period] of [data_collector], already through
    [int(sampling_period.total_seconds())]. *)
Definition sampling_period (hist_df : list PowerSample) : result Z :=
  t0 ← iloc hist_df 0;
  t1 ← iloc hist_df 1;
  mret (Clock.total_seconds_int (p_datetime t0 - p_datetime t1)).

(** [years] of [download_hist_weather_data]. *)
Definition years (hist_df : list PowerSample) : result (list Z) :=
  tl ← iloc_last hist_df;
  t0 ← iloc hist_df 0;
  mret (py_range (Clock.year (p_datetime tl)) (Clock.year (p_datetime t0))).

Definition archive_url (meteo_code : StationRecord) (year : Z) : string :=
  "https://dane.imgw.pl/data/dane_pomiarowo_obserwacyjne/dane_meteorologiczne/terminowe/synop/"
  +:+ str_int year +:+ "/" +:+ str_int year +:+ "_" +:+ code meteo_code +:+ "_s.zip".

Definition zip_path (meteo_code : StationRecord) (year : Z) : string :=
  "tmp/" +:+ str_int year +:+ "_" +:+ code meteo_code +:+ "_s.zip".

Definition csv_path (meteo_code : StationRecord) (year : Z) : string :=
  "tmp/s_t_" +:+ code meteo_code +:+ "_" +:+ str_int year +:+ ".csv".

(** [df.loc[:, [21, 23, 25, 29, 69]]] followed by the [rename]: a missing
    label raises. *)
Definition select_columns (df : RawFrame) : result (list WeatherObservation) :=
  if forallb (fun c => existsb (Z.eqb c) (raw_columns df)) [21; 23; 25; 29; 69] then
    mret (map (fun row : Clock.Timestamp * (Z -> option Q) =>
                 {| w_datetime := row.1;
                    clouds := row.2 21;
                    wind_dir := row.2 23;
                    wind_speed := row.2 25;
                    temp := row.2 29;
                    sun := row.2 69 |}) (raw_rows df))
  else raise KeyError.

(** The body of the [for year in years] loop of
    [download_hist_weather_data]; the [print] of the status code is left
    out. *)
Definition load_year (w : World) (meteo_code : StationRecord) (year : Z)
    : io files (list WeatherObservation) :=
  let r := requests_get w (archive_url meteo_code year) in
  _ ← (if ok r then mret tt
       else io_raise (ValueError ("Error getting data from IMGW: Response Code "
                                  +:+ str_int (status_code r))));
  _ ← Fs.write_file (zip_path meteo_code year) (content r);
  _ ← Fs.extractall w (zip_path meteo_code year) TMP_DATA_PATH;
  raw ← Fs.read_csv w (csv_path meteo_code year);
  df ← io_lift (select_columns raw);
  _ ← Fs.remove (zip_path meteo_code year);
  _ ← Fs.remove (csv_path meteo_code year);
  mret df.

Definition download_hist_weather_data (w : World) (hist_df : list PowerSample)
    (meteo_code : StationRecord) : io files (list WeatherObservation) :=
  ys ← io_lift (years hist_df);
  dfs ← io_for ys (load_year w meteo_code);
  io_lift (Pandas.concat dfs).

(** [__init__] up to the assignment of [self.__weather]; [cords] is the
    pair the caller passes. *)
Definition init_attributes (w : World) (name : string) (installed_power : Q)
    (cords : R * R) (hist_data_path : string) : io files RESMeasuringPoint :=
  hist_df ← io_lift (hist_df_parser w hist_data_path);
  let lon := cords.1 in
  let lat := cords.2 in
  meteo_code ← io_lift (find_nearest_meteo_station w lon lat);
  weather ← download_hist_weather_data w hist_df meteo_code;
  mret {| self_name := name;
          self_installed_power := installed_power;
          self_hist_data_path := hist_data_path;
          self_hist_df := hist_df;
          self_lon := lon;
          self_lat := lat;
          self_meteo_code := meteo_code;
          self_weather := weather;
          self_res_type := None |}.

(** [self.res_type = res_type] inside a method that works on the files:
    the setter runs on the object, its exception propagates. *)
Definition assign_res_type (v : string) (self : RESMeasuringPoint)
    : io files RESMeasuringPoint :=
  io_lift (match res_type_setter v self with
           | (inl e, _) => raise e
           | (inr _, self') => mret self'
           end).

(** [__init__]: its last statement is [self.res_type = res_type]. *)
Definition init (w : World) (name : string) (installed_power : Q) (cords : R * R)
    (hist_data_path : string) (res_type : string) : io files RESMeasuringPoint :=
  self ← init_attributes w name installed_power cords hist_data_path;
  assign_res_type res_type self.

Definition fused_row (self : RESMeasuringPoint) (rt : string)
    (row : PowerSample * WeatherObservation) : FusedRecord :=
  {| f_datetime := p_datetime row.1;
     f_power := power row.1;
     f_clouds := clouds row.2;
     f_wind_dir := wind_dir row.2;
     f_wind_speed := wind_speed row.2;
     f_temp := temp row.2;
     f_sun := sun row.2;
     f_res_type := rt;
     f_name := self_name self;
     f_installed_power := self_installed_power self |}.

Definition data_collector (self : RESMeasuringPoint) : result (list FusedRecord) :=
  period ← sampling_period (self_hist_df self);
  weather_df ← Pandas.resample_interpolate period (self_weather self);
  let df_merged := Pandas.merge (self_hist_df self) weather_df in
  rt ← res_type self;
  mret (map (fused_row self rt) df_merged).

Definition get_weather (self : RESMeasuringPoint) : list WeatherObservation :=
  self_weather self.

(** The script at the end of the module. *)
Definition main (w : World) : io files (list FusedRecord) :=
  point ← init w "first" (50005 # 10) (53.007%R, 14.822%R) HISTORICAL_POWER_DATA_PATH "wind";
  io_lift (data_collector point).

(** ** Sample inputs *)

Module Samples.

(** Two stations and a site at 60 degrees north, 60 degrees east. *)
Definition station_north : StationRecord := {| code := "350"; s_lat := 60; s_lon := 0 |}.
Definition station_east : StationRecord := {| code := "360"; s_lat := 0; s_lon := 60 |}.
Definition registry : list StationRecord := [station_north; station_east].

Definition sample (t : Clock.Timestamp) (kw : Q) : PowerSample :=
  {| p_datetime := t; power := kw |}.

(** Two readings a quarter of an hour apart across New Year, latest
    first. *)
Definition hist_latest_first : list PowerSample :=
  [sample (Clock.datetime 2020 1 1 0 0 0) 110; sample (Clock.datetime 2019 12 31 23 45 0) 100].

(** Two readings of one year. *)
Definition hist_one_year : list PowerSample :=
  [sample (Clock.datetime 2020 6 1 0 15 0) 110; sample (Clock.datetime 2020 6 1 0 0 0) 100].

(** A server that answers every request with bytes that are no archive. *)
Definition world_no_archive : World :=
  {| read_excel_stations := inr registry;
     read_excel_hist := fun _ => inr hist_latest_first;
     requests_get := fun _ => {| ok := true; status_code := 200; content := "<html>" |};
     zip_members := fun _ => None;
     csv_frame := fun _ => None |}.

(** A server whose archive for station 350 and 2019 holds the expected
    member, which does not parse. *)
Definition world_bad_csv : World :=
  {| read_excel_stations := inr registry;
     read_excel_hist := fun _ => inr hist_latest_first;
     requests_get := fun _ => {| ok := true; status_code := 200; content := "PK" |};
     zip_members := fun _ => Some [("s_t_350_2019.csv", "?")];
     csv_frame := fun _ => None |}.

(** A server that refuses every request. *)
Definition world_not_found : World :=
  {| read_excel_stations := inr registry;
     read_excel_hist := fun _ => inr hist_latest_first;
     requests_get := fun _ => {| ok := false; status_code := 404; content := String.EmptyString |};
     zip_members := fun _ => None;
     csv_frame := fun _ => None |}.

(** A registry of one station and a server whose archive parses: one row,
    all columns there, the cell under label [c] holding [c]. *)
Definition world_fine : World :=
  {| read_excel_stations := inr [station_north];
     read_excel_hist := fun _ => inr hist_latest_first;
     requests_get := fun _ => {| ok := true; status_code := 200; content := "PK" |};
     zip_members := fun _ => Some [("s_t_350_2019.csv", "rows")];
     csv_frame := fun _ =>
       Some {| raw_columns := map Z.of_nat (seq 0 107);
               raw_rows := [(Clock.datetime 2019 12 31 23 0 0, fun c => Some (inject_Z c))] |} |}.

(** The frame loaded from that archive. *)
Definition weather_fine : list WeatherObservation :=
  [{| w_datetime := Clock.datetime 2019 12 31 23 0 0;
      clouds := Some 21%Q; wind_dir := Some 23%Q; wind_speed := Some 25%Q;
      temp := Some 29%Q; sun := Some 69%Q |}].

(** The object [__init__] has built in that world before it assigns
    [res_type]. *)
Definition attributes_fine : RESMeasuringPoint :=
  {| self_name := "first";
     self_installed_power := 50005 # 10;
     self_hist_data_path := HISTORICAL_POWER_DATA_PATH;
     self_hist_df := hist_latest_first;
     self_lon := 60;
     self_lat := 60;
     self_meteo_code := station_north;
     self_weather := weather_fine;
     self_res_type := None |}.

Definition obs (t : Clock.Timestamp) (c : option Q) : WeatherObservation :=
  {| w_datetime := t; clouds := c; wind_dir := None; wind_speed := None;
     temp := None; sun := None |}.

(** Observations at 00:01:40 and 00:16:40, off the quarter-hour labels. *)
Definition weather_off_grid : list WeatherObservation :=
  [obs (Clock.datetime 2020 6 1 0 1 40) (Some 50%Q); obs (Clock.datetime 2020 6 1 0 16 40) (Some 70%Q)].

(** Hourly observations, the middle one without a cloud reading. *)
Definition weather_gap : list WeatherObservation :=
  [obs (Clock.datetime 2020 6 1 0 0 0) (Some 50%Q);
   obs (Clock.datetime 2020 6 1 1 0 0) None;
   obs (Clock.datetime 2020 6 1 2 0 0) (Some 70%Q)].

(** One observation, at midnight. *)
Definition weather_midnight : list WeatherObservation :=
  [obs (Clock.datetime 2020 6 1 0 0 0) (Some 50%Q)].

(** An object written down attribute by attribute: readings at 00:15 and
    00:00, weather at 00:00. *)
Definition point : RESMeasuringPoint :=
  {| self_name := "first";
     self_installed_power := 50005 # 10;
     self_hist_data_path := HISTORICAL_POWER_DATA_PATH;
     self_hist_df := hist_one_year;
     self_lon := 60;
     self_lat := 60;
     self_meteo_code := station_north;
     self_weather := weather_midnight;
     self_res_type := Some "wind" |}.

(** What [data_collector] returns on [point]. *)
Definition fused_point : list FusedRecord :=
  [{| f_datetime := Clock.datetime 2020 6 1 0 0 0; f_power := 100;
      f_clouds := Some 50%Q; f_wind_dir := None; f_wind_speed := None;
      f_temp := None; f_sun := None;
      f_res_type := "wind"; f_name := "first";
      f_installed_power := 50005 # 10 |}].

(** A sheet whose first two rows are in order of occurrence and whose last
    row is of the year before. *)
Definition hist_mixed : list PowerSample :=
  [sample (Clock.datetime 2020 1 1 0 0 0) 110;
   sample (Clock.datetime 2020 1 1 0 15 0) 120;
   sample (Clock.datetime 2019 12 31 23 45 0) 100].

(** The world of [world_fine] with that sheet, and the object [__init__]
    returns in it. *)
Definition world_mixed : World :=
  {| read_excel_stations := inr [station_north];
     read_excel_hist := fun _ => inr hist_mixed;
     requests_get := requests_get world_fine;
     zip_members := zip_members world_fine;
     csv_frame := csv_frame world_fine |}.

Definition point_mixed : RESMeasuringPoint :=
  {| self_name := "first";
     self_installed_power := 50005 # 10;
     self_hist_data_path := HISTORICAL_POWER_DATA_PATH;
     self_hist_df := hist_mixed;
     self_lon := 60;
     self_lat := 60;
     self_meteo_code := station_north;
     self_weather := weather_fine;
     self_res_type := Some "wind" |}.

(** A csv row that holds a cloud reading and nothing else. *)
Definition clouds_only (v : Q) : Z -> option Q :=
  fun c => if c =? 21 then Some v else None.

(** Three observations a quarter of an hour apart, seven minutes past the
    quarter-hour labels; the world whose archive of 2019 holds them, and
    the object [__init__] returns in it. *)
Definition weather_shifted : list WeatherObservation :=
  [obs (Clock.datetime 2019 12 31 23 22 0) (Some 50%Q);
   obs (Clock.datetime 2019 12 31 23 37 0) (Some 60%Q);
   obs (Clock.datetime 2019 12 31 23 52 0) (Some 70%Q)].

Definition world_shifted : World :=
  {| read_excel_stations := inr [station_north];
     read_excel_hist := fun _ => inr hist_latest_first;
     requests_get := requests_get world_fine;
     zip_members := zip_members world_fine;
     csv_frame := fun _ =>
       Some {| raw_columns := map Z.of_nat (seq 0 107);
               raw_rows := [(Clock.datetime 2019 12 31 23 22 0, clouds_only 50);
                            (Clock.datetime 2019 12 31 23 37 0, clouds_only 60);
                            (Clock.datetime 2019 12 31 23 52 0, clouds_only 70)] |} |}.

Definition point_shifted : RESMeasuringPoint :=
  {| self_name := "first";
     self_installed_power := 50005 # 10;
     self_hist_data_path := HISTORICAL_POWER_DATA_PATH;
     self_hist_df := hist_latest_first;
     self_lon := 60;
     self_lat := 60;
     self_meteo_code := station_north;
     self_weather := weather_shifted;
     self_res_type := Some "wind" |}.

(** Readings half an hour apart across New Year, latest first, and hourly
    observations at 22:00 and 23:00 of New Year's Eve; the world that
    holds them, and the object [__init__] returns in it. *)
Definition hist_evening : list PowerSample :=
  [sample (Clock.datetime 2020 1 1 0 0 0) 120;
   sample (Clock.datetime 2019 12 31 23 30 0) 110;
   sample (Clock.datetime 2019 12 31 23 0 0) 100].

Definition weather_evening : list WeatherObservation :=
  [obs (Clock.datetime 2019 12 31 22 0 0) (Some 50%Q);
   obs (Clock.datetime 2019 12 31 23 0 0) (Some 70%Q)].

Definition world_evening : World :=
  {| read_excel_stations := inr [station_north];
     read_excel_hist := fun _ => inr hist_evening;
     requests_get := requests_get world_fine;
     zip_members := zip_members world_fine;
     csv_frame := fun _ =>
       Some {| raw_columns := map Z.of_nat (seq 0 107);
               raw_rows := [(Clock.datetime 2019 12 31 22 0 0, clouds_only 50);
                            (Clock.datetime 2019 12 31 23 0 0, clouds_only 70)] |} |}.

Definition point_evening : RESMeasuringPoint :=
  {| self_name := "first";
     self_installed_power := 50005 # 10;
     self_hist_data_path := HISTORICAL_POWER_DATA_PATH;
     self_hist_df := hist_evening;
     self_lon := 60;
     self_lat := 60;
     self_meteo_code := station_north;
     self_weather := weather_evening;
     self_res_type := Some "wind" |}.

(** What [data_collector] returns on [point_evening]. *)
Definition fused_evening : list FusedRecord :=
  [{| f_datetime := Clock.datetime 2019 12 31 23 0 0; f_power := 100;
      f_clouds := Some 70%Q; f_wind_dir := None; f_wind_speed := None;
      f_temp := None; f_sun := None;
      f_res_type := "wind"; f_name := "first";
      f_installed_power := 50005 # 10 |}].

End Samples.

(** ** A caller that keeps assigning *)

(** The object after a caller has tried [self.res_type = v] for each [v] of
    [vs] in turn, going on after an assignment that raised. *)
Definition assign_each (vs : list string) (self : RESMeasuringPoint) : RESMeasuringPoint :=
  foldl (fun o v => (res_type_setter v o).2) self vs.

(** ** More sample inputs *)

Module MoreSamples.


(** Readings from the end of 2018 to the start of 2020, latest first. *)
Definition hist_three_years : list PowerSample :=
  [Samples.sample (Clock.datetime 2020 1 1 0 0 0) 120;
   Samples.sample (Clock.datetime 2019 6 1 0 0 0) 110;
   Samples.sample (Clock.datetime 2018 12 31 23 45 0) 100].

(** A server with an archive for 2018 and a page that is no archive for
    every other year. *)
Definition world_second_year_fails : World :=
  {| read_excel_stations := inr [Samples.station_north];
     read_excel_hist := fun _ => inr hist_three_years;
     requests_get := fun url =>
       if String.eqb url (archive_url Samples.station_north 2018)
       then {| ok := true; status_code := 200; content := "PK" |}
       else {| ok := true; status_code := 200; content := "<html>" |};
     zip_members := fun data =>
       if String.eqb data "PK" then Some [("s_t_350_2018.csv", "rows")] else None;
     csv_frame := csv_frame Samples.world_fine |}.

(** A sheet with readings of one year only. *)
Definition world_one_year : World :=
  {| read_excel_stations := inr [Samples.station_north];
     read_excel_hist := fun _ => inr Samples.hist_one_year;
     requests_get := requests_get Samples.world_fine;
     zip_members := zip_members Samples.world_fine;
     csv_frame := csv_frame Samples.world_fine |}.

(** An empty registry, and a sheet that cannot be read. *)
Definition world_no_station : World :=
  {| read_excel_stations := inr [];
     read_excel_hist := fun _ => inr Samples.hist_latest_first;
     requests_get := requests_get Samples.world_fine;
     zip_members := zip_members Samples.world_fine;
     csv_frame := csv_frame Samples.world_fine |}.

Definition world_no_sheet : World :=
  {| read_excel_stations := inr [Samples.station_north];
     read_excel_hist := fun path => inl (FileNotFoundError path);
     requests_get := requests_get Samples.world_fine;
     zip_members := zip_members Samples.world_fine;
     csv_frame := csv_frame Samples.world_fine |}.

(** An archive with members whose names leave the directory on paper:
    [../keep.txt] is extracted to [tmp/keep.txt]. *)
Definition world_dotted_member : World :=
  {| read_excel_stations := inr [Samples.station_north];
     read_excel_hist := fun _ => inr Samples.hist_latest_first;
     requests_get := fun _ => {| ok := true; status_code := 200; content := "PK" |};
     zip_members := fun _ =>
       Some [("../keep.txt", "new"); ("./s_t_350_2019.csv", "rows"); ("doc/", "-");
             ("doc/opis.txt", "legend")];
     csv_frame := csv_frame Samples.world_fine |}.

(** The registry of two stations. *)
Definition world_two_stations : World :=
  {| read_excel_stations := inr Samples.registry;
     read_excel_hist := fun _ => inr Samples.hist_latest_first;
     requests_get := requests_get Samples.world_fine;
     zip_members := zip_members Samples.world_fine;
     csv_frame := csv_frame Samples.world_fine |}.

End MoreSamples.

(** ** Predicates of the statements *)

(** [k], at position [i], is the first minimum of the column [s]: the
    invariant of the scan of [idxmin]. *)
Definition first_min (s : list R) (i : nat) (k : R) : Prop :=
  s !! i = Some k /\
  (forall j k', s !! j = Some k' -> (k <= k')%R) /\
  (forall j k', (j < i)%nat -> s !! j = Some k' -> (k < k')%R).

(** The values the setter stores. *)
Definition allowed (v : string) : bool := negb (not_in_wind_pv v).

(** The members of an archive that [extractall] writes to the path [p]:
    those that are no directory entries and whose target is [p]. *)
Definition written_to (dir p : string) (members : list (string * string))
    : list (string * string) :=
  List.filter (fun m : string * string =>
                 negb (Fs.is_dir m.1) && String.eqb (Fs.target dir m.1) p) members.

(** * Properties *)

(** ** Great-circle distance *)

Section Haversine.

Local Open Scope R_scope.

Lemma radians_sub (x y : R) : Geo.radians x - Geo.radians y = - (Geo.radians y - Geo.radians x).
Proof. unfold Geo.radians. lra. Qed.

Lemma sin_half_sqr_opp (x : R) : sin (- x / 2) ^ 2 = sin (x / 2) ^ 2.
Proof.
  replace (- x / 2) with (- (x / 2)) by lra.
  rewrite sin_neg. ring.
Qed.

(** C8: [haversine] gives the same distance in both directions, and the
    distance of a point to itself is 0. *)
Theorem haversine_symmetric_and_zero :
  (forall lon1 lat1 lon2 lat2 : R,
      Geo.haversine lon1 lat1 lon2 lat2 = Geo.haversine lon2 lat2 lon1 lat1) /\
  (forall lon lat : R, Geo.haversine lon lat lon lat = 0).
Proof.
  split.
  - intros lon1 lat1 lon2 lat2. unfold Geo.haversine. cbv zeta.
    rewrite (radians_sub lat2 lat1), (radians_sub lon2 lon1).
    rewrite !sin_half_sqr_opp.
    rewrite (Rmult_comm (cos (Geo.radians lat1)) (cos (Geo.radians lat2))).
    reflexivity.
  - intros lon lat. unfold Geo.haversine. cbv zeta.
    replace ((Geo.radians lat - Geo.radians lat) / 2) with 0 by lra.
    replace ((Geo.radians lon - Geo.radians lon) / 2) with 0 by lra.
    rewrite sin_0.
    replace (0 ^ 2 + cos (Geo.radians lat) * cos (Geo.radians lat) * 0 ^ 2) with 0 by ring.
    rewrite sqrt_0, asin_0. ring.
Qed.

Lemma asin_lt (x y : R) : -1 <= x -> x < y -> y <= 1 -> asin x < asin y.
Proof.
  intros Hx Hxy Hy.
  destruct (asin_bound x), (asin_bound y).
  apply sin_increasing_0; try assumption.
  rewrite !sin_asin by lra. exact Hxy.
Qed.

(** The product of the two cosines in terms of the half difference and
    the half sum of the latitudes. *)
Lemma cos_cos_half (u v : R) :
  cos u * cos v = cos ((v - u) / 2) ^ 2 - sin ((u + v) / 2) ^ 2.
Proof.
  set (x := (v - u) / 2). set (m := (u + v) / 2).
  replace u with (m - x) by (unfold x, m; lra).
  replace v with (m + x) at 1 by (unfold x, m; lra).
  rewrite cos_minus, cos_plus.
  pose proof (sin2_cos2 m) as Hm. pose proof (sin2_cos2 x) as Hx.
  unfold Rsqr in Hm, Hx.
  assert (E1 : cos m * cos m = 1 - sin m * sin m) by lra.
  assert (E2 : sin x * sin x = 1 - cos x * cos x) by lra.
  transitivity (cos m * cos m * (cos x * cos x) - sin m * sin m * (sin x * sin x)).
  - ring.
  - rewrite E1, E2. ring.
Qed.

(** What [haversine] hands to [sqrt] lies in [0, 1], so over the reals
    neither [sqrt] nor [asin] is ever called outside its domain. *)
Lemma haversine_domain (lat1 lat2 dlon : R) :
  let a := sin ((lat2 - lat1) / 2) ^ 2 + cos lat1 * cos lat2 * sin (dlon / 2) ^ 2 in
  0 <= a <= 1.
Proof.
  cbv zeta. rewrite cos_cos_half.
  pose proof (sin2_cos2 ((lat2 - lat1) / 2)) as Hx. unfold Rsqr in Hx.
  pose proof (pow2_ge_0 (sin ((lat2 - lat1) / 2))) as Hsx.
  pose proof (pow2_ge_0 (cos ((lat2 - lat1) / 2))) as Hcx.
  pose proof (pow2_ge_0 (sin ((lat1 + lat2) / 2))) as Hsm.
  pose proof (pow2_ge_0 (sin (dlon / 2))) as Hh.
  assert (Hh1 : sin (dlon / 2) ^ 2 <= 1).
  { pose proof (SIN_bound (dlon / 2)). nra. }
  assert (Hm1 : sin ((lat1 + lat2) / 2) ^ 2 <= 1).
  { pose proof (SIN_bound ((lat1 + lat2) / 2)). nra. }
  nra.
Qed.

End Haversine.

(** ** Nearest station *)

Section Nearest.

Local Open Scope R_scope.

Lemma Rltb_true (x y : R) : Geo.Rltb x y = true <-> x < y.
Proof. unfold Geo.Rltb. destruct (Rlt_dec x y); split; intros; congruence || assumption. Qed.

Lemma idxmin_from_first_min (s seen : list R) (best_i : nat) (best : R) :
  first_min seen best_i best ->
  exists k, first_min (seen ++ s)
              (Pandas.idxmin_from Geo.Rltb best_i best (length seen) s) k.
Proof.
  revert seen best_i best.
  induction s as [|x s IH]; intros seen best_i best (Hat & Hle & Hlt); simpl.
  - exists best. rewrite app_nil_r. repeat split; assumption.
  - assert (Hlen : S (length seen) = length (seen ++ [x])).
    { rewrite length_app. simpl. lia. }
    replace (seen ++ x :: s) with ((seen ++ [x]) ++ s) by (rewrite <- app_assoc; reflexivity).
    rewrite Hlen.
    destruct (Geo.Rltb x best) eqn:Hx.
    + apply Rltb_true in Hx. apply IH. repeat split.
      * rewrite lookup_app_r by lia. rewrite Nat.sub_diag. reflexivity.
      * intros j k' Hj. apply lookup_app_Some in Hj as [Hj | [_ Hj]].
        -- specialize (Hle _ _ Hj). lra.
        -- apply list_lookup_singleton_Some in Hj as [_ <-]. lra.
      * intros j k' Hji Hj. rewrite lookup_app_l in Hj by exact Hji.
        specialize (Hle _ _ Hj). lra.
    + assert (Hbx : best <= x).
      { destruct (Rlt_dec x best) as [H | H]; [| lra].
        apply Rltb_true in H. congruence. }
      apply IH. repeat split.
      * apply lookup_app_l_Some. exact Hat.
      * intros j k' Hj. apply lookup_app_Some in Hj as [Hj | [_ Hj]].
        -- exact (Hle _ _ Hj).
        -- apply list_lookup_singleton_Some in Hj as [_ <-]. exact Hbx.
      * intros j k' Hji Hj.
        assert (Hb : (best_i < length seen)%nat) by (eapply lookup_lt_Some; exact Hat).
        rewrite lookup_app_l in Hj by lia. exact (Hlt _ _ Hji Hj).
Qed.

Lemma idxmin_first_min (s : list R) (i : nat) :
  Pandas.idxmin Geo.Rltb s = inr i -> exists k, first_min s i k.
Proof.
  destruct s as [|x s]; simpl; [discriminate |].
  intros [= <-].
  apply (idxmin_from_first_min s [x] 0%nat x).
  repeat split.
  - intros [|j] k' Hj; simpl in Hj; [injection Hj as <-; lra | destruct j; discriminate].
  - intros j k' Hj. lia.
Qed.

(** The lookup returns the first station whose key, as the lookup computes
    it, is the least. *)
Lemma nearest_in_first_min_key (df : list StationRecord) (lon lat : R) (st : StationRecord) :
  nearest_in df lon lat = inr st ->
  exists i, df !! i = Some st /\
    (forall x, x ∈ df -> station_key lon lat st <= station_key lon lat x) /\
    (forall j x, (j < i)%nat -> df !! j = Some x ->
                 station_key lon lat st < station_key lon lat x).
Proof.
  unfold nearest_in.
  destruct (Pandas.idxmin Geo.Rltb (map (station_key lon lat) df)) as [e | i] eqn:Hi;
    simpl; [discriminate |].
  destruct (idxmin_first_min _ _ Hi) as (k & Hat & Hle & Hlt).
  unfold iloc. destruct (df !! i) as [st' |] eqn:Hst; simpl; [| discriminate].
  intros [= <-]. exists i. split; [exact Hst |].
  rewrite list_lookup_fmap, Hst in Hat. simpl in Hat. injection Hat as <-.
  split.
  - intros x Hx. apply list_elem_of_lookup in Hx as [j Hj].
    apply (Hle j). rewrite list_lookup_fmap, Hj. reflexivity.
  - intros j x Hji Hj. apply (Hlt j); [exact Hji |].
    rewrite list_lookup_fmap, Hj. reflexivity.
Qed.

(** On a registry with at least one row the lookup returns a station; on
    an empty one it raises. *)
Lemma nearest_in_total (df : list StationRecord) (lon lat : R) :
  df <> [] -> exists st, nearest_in df lon lat = inr st.
Proof.
  intros Hne. unfold nearest_in.
  destruct (Pandas.idxmin Geo.Rltb (map (station_key lon lat) df)) as [e | i] eqn:Hi.
  - destruct df; [congruence | discriminate].
  - destruct (idxmin_first_min _ _ Hi) as (k & Hat & _).
    rewrite list_lookup_fmap in Hat. simpl. unfold iloc.
    destruct (df !! i) as [st |]; [| discriminate]. exists st. reflexivity.
Qed.

Lemma nearest_in_empty (lon lat : R) :
  nearest_in [] lon lat = inl (ValueError "attempt to get argmin of an empty sequence").
Proof. reflexivity. Qed.

(** Two distances worked out: a quarter and a sixteenth under the root. *)
Lemma haversine_60_0_60_60 : Geo.haversine 60 0 60 60 = 2 * asin (1 / 2) * 6371.
Proof.
  unfold Geo.haversine, Geo.radians. cbv zeta.
  replace ((60 * (PI / 180) - 0 * (PI / 180)) / 2) with (PI / 6) by lra.
  replace ((60 * (PI / 180) - 60 * (PI / 180)) / 2) with 0 by lra.
  rewrite sin_PI6, sin_0.
  replace ((1 / 2) ^ 2 + cos (0 * (PI / 180)) * cos (60 * (PI / 180)) * 0 ^ 2)
    with (1 / 2 * (1 / 2)) by field.
  rewrite sqrt_square by lra. reflexivity.
Qed.

Lemma haversine_0_60_60_60 : Geo.haversine 0 60 60 60 = 2 * asin (1 / 4) * 6371.
Proof.
  unfold Geo.haversine, Geo.radians. cbv zeta.
  replace ((60 * (PI / 180) - 60 * (PI / 180)) / 2) with 0 by lra.
  replace ((60 * (PI / 180) - 0 * (PI / 180)) / 2) with (PI / 6) by lra.
  replace (60 * (PI / 180)) with (PI / 3) by lra.
  rewrite sin_PI6, sin_0, cos_PI3.
  replace (0 ^ 2 + 1 / 2 * (1 / 2) * (1 / 2) ^ 2) with (1 / 4 * (1 / 4)) by field.
  rewrite sqrt_square by lra. reflexivity.
Qed.

Lemma haversine_sample_order : Geo.haversine 0 60 60 60 < Geo.haversine 60 0 60 60.
Proof.
  rewrite haversine_60_0_60_60, haversine_0_60_60_60.
  assert (asin (1 / 4) < asin (1 / 2)) by (apply asin_lt; lra).
  lra.
Qed.

(** C1: for the site at (60, 60) and the registry of the station at
    60 N, 0 E followed by the station at 0 N, 60 E, the lookup returns the
    second station, although the first one is at the smaller haversine
    distance from the site: the lookup hands the latitude of a station to
    the longitude parameter of [haversine] and its longitude to the
    latitude parameter. *)
Theorem nearest_in_returns_farther_station :
  nearest_in Samples.registry 60 60 = inr Samples.station_east /\
  Geo.haversine (s_lon Samples.station_north) (s_lat Samples.station_north) 60 60
  < Geo.haversine (s_lon Samples.station_east) (s_lat Samples.station_east) 60 60.
Proof.
  split.
  - unfold nearest_in, Samples.registry, station_key. simpl.
    replace (Geo.Rltb (Geo.haversine 0 60 60 60) (Geo.haversine 60 0 60 60)) with true.
    + reflexivity.
    + symmetry. apply Rltb_true. exact haversine_sample_order.
  - simpl. exact haversine_sample_order.
Qed.

End Nearest.

(** ** Years fetched and sampling period *)

Section Span.

(** The calendar on a few dates: the last and first second of a year, a
    leap day, the epoch and the day before it. *)
Example year_samples :
  Clock.year (Clock.datetime 2019 12 31 23 59 59) = 2019 /\
  Clock.year (Clock.datetime 2020 1 1 0 0 0) = 2020 /\
  Clock.year (Clock.datetime 2020 2 29 12 0 0) = 2020 /\
  Clock.year 0 = 1970 /\
  Clock.year (-1) = 1969.
Proof. repeat split. Qed.

Lemma elem_of_py_range (a b y : Z) : y ∈ py_range a b <-> a <= y < b.
Proof.
  unfold py_range. rewrite list_elem_of_fmap. split.
  - intros (i & -> & Hi). apply elem_of_seq in Hi. lia.
  - intros Hy. exists (Z.to_nat (y - a)). split; [lia |].
    apply elem_of_seq. lia.
Qed.

(** The year of the first row is never among the years fetched. *)
Lemma years_omit_year_of_first_row (hist_df : list PowerSample) (ys : list Z) (s0 : PowerSample) :
  years hist_df = inr ys -> hist_df !! 0%nat = Some s0 ->
  Clock.year (p_datetime s0) ∉ ys.
Proof.
  unfold years, iloc_last, iloc. intros Hys H0. rewrite H0 in Hys.
  destruct (last hist_df) as [sl |]; simpl in Hys; [| discriminate].
  injection Hys as <-. rewrite elem_of_py_range. lia.
Qed.

(** C3: for readings of 2020-01-01 and 2019-12-31 stored latest first the
    years fetched are 2019 alone, and for readings of 2020 only there is
    no year to fetch: the year of the first row, which the span of the
    readings includes, is left out. *)
Theorem years_leave_out_boundary_year :
  years Samples.hist_latest_first = inr [2019] /\
  years Samples.hist_one_year = inr [].
Proof. split; reflexivity. Qed.

Lemma sampling_period_eq (s0 s1 : PowerSample) (rest : list PowerSample) :
  sampling_period (s0 :: s1 :: rest)
  = inr (Clock.total_seconds_int (p_datetime s0 - p_datetime s1)).
Proof. reflexivity. Qed.

(** For readings stored ascending and a whole number of seconds apart the
    period is the negated distance of the first two. *)
Lemma sampling_period_ascending (s0 s1 : PowerSample) (rest : list PowerSample) (n : Z) :
  p_datetime s1 = p_datetime s0 + Clock.seconds n ->
  sampling_period (s0 :: s1 :: rest) = inr (- n).
Proof.
  intros H. rewrite sampling_period_eq, H. unfold Clock.total_seconds_int, Clock.seconds.
  replace (p_datetime s0 - (p_datetime s0 + n * Clock.NS_PER_SEC))
    with ((- n) * Clock.NS_PER_SEC) by lia.
  rewrite Z.quot_mul by (unfold Clock.NS_PER_SEC; lia). reflexivity.
Qed.

(** C5: the sheet whose rows are 2020-01-01 00:00, 2020-01-01 00:15 and
    2019-12-31 23:45 is accepted by [__init__]; on the object it returns,
    the period [data_collector] computes is -900 seconds and the rule it
    builds is '-900S', while the first two timestamps are 900 seconds
    apart. *)
Theorem sampling_period_negative_on_constructed_object :
  init Samples.world_mixed "first" (50005 # 10) (60%R, 60%R)
    HISTORICAL_POWER_DATA_PATH "wind" ∅ = (inr Samples.point_mixed, ∅) /\
  sampling_period (self_hist_df Samples.point_mixed) = inr (-900) /\
  str_int (-900) +:+ "S" = "-900S" /\
  Z.abs (Clock.datetime 2020 1 1 0 0 0 - Clock.datetime 2020 1 1 0 15 0)
  = Clock.seconds 900.
Proof. repeat split. Qed.

End Span.

(** ** Temporary files of one archive load *)

Section TempFiles.

Ltac step_io := unfold mbind, io_bind, mret, io_ret, io_raise, io_modify, io_lift.

(** A refused request raises before anything is written. *)
Lemma load_year_refused (w : World) (st : StationRecord) (y : Z) (fs : files) :
  ok (requests_get w (archive_url st y)) = false ->
  load_year w st y fs
  = (inl (ValueError ("Error getting data from IMGW: Response Code "
                      +:+ str_int (status_code (requests_get w (archive_url st y))))), fs).
Proof. intros H. unfold load_year. step_io. rewrite H. reflexivity. Qed.

(** When the load returns a frame, the archive and the csv are gone. *)
Lemma load_year_returns_clean (w : World) (st : StationRecord) (y : Z)
    (fs fs' : files) (df : list WeatherObservation) :
  load_year w st y fs = (inr df, fs') ->
  fs' !! zip_path st y = None /\ fs' !! csv_path st y = None.
Proof.
  unfold load_year, Fs.write_file, Fs.extractall, Fs.read_csv, Fs.read_file, Fs.remove.
  step_io.
  destruct (ok _); [| discriminate].
  rewrite lookup_insert_eq.
  destruct (zip_members w _) as [members |]; [| discriminate].
  destruct (Fs.extract_members _ members _) as [[e | []] fs1]; [discriminate |].
  destruct (fs1 !! csv_path st y) as [data |] eqn:Hcsv; [| discriminate].
  destruct (csv_frame w data) as [raw |]; [| discriminate].
  destruct (select_columns raw) as [e | df']; [discriminate |].
  destruct (fs1 !! zip_path st y) as [z |] eqn:Hzip; [| discriminate].
  destruct (delete (zip_path st y) fs1 !! csv_path st y) as [c |] eqn:Hc; [| discriminate].
  intros [= _ <-]. split.
  - destruct (decide (csv_path st y = zip_path st y)) as [E | NE].
    + rewrite <- E. apply lookup_delete_eq.
    + rewrite lookup_delete_ne by exact NE. apply lookup_delete_eq.
  - apply lookup_delete_eq.
Qed.

(** Bytes that are no archive raise after the download was written, and the
    download stays. *)
Lemma load_year_bad_zip (w : World) (st : StationRecord) (y : Z) (fs : files) :
  ok (requests_get w (archive_url st y)) = true ->
  zip_members w (content (requests_get w (archive_url st y))) = None ->
  load_year w st y fs
  = (inl BadZipFile, <[zip_path st y := content (requests_get w (archive_url st y))]> fs).
Proof.
  intros Hok Hzip. unfold load_year, Fs.write_file, Fs.extractall, Fs.read_file.
  step_io. rewrite Hok, lookup_insert_eq, Hzip. reflexivity.
Qed.

(** C4: when the bytes fetched for station 350 and 2019 are no archive,
    the load raises [BadZipFile] and the downloaded file stays in the
    temporary directory; when the extracted csv does not parse, the load
    raises [ParserError] and both the archive and the csv stay. *)
Theorem load_year_leaves_files_on_error :
  let '(r1, fs1) := load_year Samples.world_no_archive Samples.station_north 2019 ∅ in
  let '(r2, fs2) := load_year Samples.world_bad_csv Samples.station_north 2019 ∅ in
  (r1 = inl BadZipFile /\ fs1 !! "tmp/2019_350_s.zip" = Some "<html>") /\
  (r2 = inl ParserError /\ fs2 !! "tmp/2019_350_s.zip" = Some "PK"
     /\ fs2 !! "tmp/s_t_350_2019.csv" = Some "?").
Proof. vm_compute. repeat split. Qed.

(** The three ways out of a load, run on samples. *)
Example load_year_fine :
  load_year Samples.world_fine Samples.station_north 2019 ∅ = (inr Samples.weather_fine, ∅).
Proof. vm_compute. reflexivity. Qed.

Example load_year_not_found :
  load_year Samples.world_not_found Samples.station_north 2019 ∅
  = (inl (ValueError "Error getting data from IMGW: Response Code 404"), ∅).
Proof. vm_compute. reflexivity. Qed.

End TempFiles.

(** ** The [res_type] property *)

Section ResType.

Lemma not_in_wind_pv_false (v : string) :
  not_in_wind_pv v = false <-> v = "wind" \/ v = "pv".
Proof.
  unfold not_in_wind_pv. rewrite negb_false_iff, orb_true_iff, !String.eqb_eq.
  reflexivity.
Qed.

Lemma not_in_wind_pv_true (v : string) :
  not_in_wind_pv v = true <-> v <> "wind" /\ v <> "pv".
Proof.
  unfold not_in_wind_pv. rewrite negb_true_iff, orb_false_iff, !String.eqb_neq.
  reflexivity.
Qed.

(** What [__init__] does once the attributes are in place. *)
Lemma init_unfold (w : World) (name : string) (installed_power : Q) (cords : R * R)
    (path v : string) (fs : files) :
  init w name installed_power cords path v fs
  = match init_attributes w name installed_power cords path fs with
    | (inl e, fs') => (inl e, fs')
    | (inr self, fs') =>
        (if not_in_wind_pv v then inl (ValueError "") else inr (with_res_type v self), fs')
    end.
Proof.
  unfold init, mbind, io_bind.
  destruct (init_attributes w name installed_power cords path fs) as [[e | self] fs'];
    [reflexivity |].
  unfold assign_res_type, res_type_setter, io_lift, io_raise, io_modify.
  destruct (not_in_wind_pv v); reflexivity.
Qed.

(** C9: every assignment to [res_type] goes through the test: a value
    other than 'wind' and 'pv' makes the setter raise [ValueError], 'wind'
    and 'pv' are stored and read back; [__init__] ends with the same
    assignment, so a construction whose attributes were computed fails
    with [ValueError] on such a value and yields the object on 'wind' and
    'pv', and no construction with such a value yields an object. *)
Theorem res_type_validated_on_assignment :
  (forall (v : string) (self : RESMeasuringPoint),
      (v <> "wind" /\ v <> "pv" -> (res_type_setter v self).1 = inl (ValueError "")) /\
      (v = "wind" \/ v = "pv" ->
       (res_type_setter v self).1 = inr tt /\
       res_type (res_type_setter v self).2 = inr v)) /\
  (forall (w : World) (name : string) (installed_power : Q) (cords : R * R)
          (path v : string) (fs fs' : files) (self : RESMeasuringPoint),
      init_attributes w name installed_power cords path fs = (inr self, fs') ->
      (v <> "wind" /\ v <> "pv" ->
       init w name installed_power cords path v fs = (inl (ValueError ""), fs')) /\
      (v = "wind" \/ v = "pv" ->
       exists self', init w name installed_power cords path v fs = (inr self', fs') /\
                     res_type self' = inr v)) /\
  (forall (w : World) (name : string) (installed_power : Q) (cords : R * R)
          (path v : string) (fs : files),
      v <> "wind" /\ v <> "pv" ->
      exists e, (init w name installed_power cords path v fs).1 = inl e) /\
  (res_type_setter "solar" = io_raise (ValueError "")).
Proof.
  split; [| split; [| split]].
  - intros v self. unfold res_type_setter. split.
    + intros H. apply not_in_wind_pv_true in H. rewrite H. reflexivity.
    + intros H. apply not_in_wind_pv_false in H. rewrite H. split; reflexivity.
  - intros w name installed_power cords path v fs fs' self Hattr.
    rewrite init_unfold, Hattr. split.
    + intros H. apply not_in_wind_pv_true in H. rewrite H. reflexivity.
    + intros H. apply not_in_wind_pv_false in H. rewrite H.
      exists (with_res_type v self). split; reflexivity.
  - intros w name installed_power cords path v fs H.
    apply not_in_wind_pv_true in H. rewrite init_unfold.
    destruct (init_attributes w name installed_power cords path fs) as [[e | self] fs'].
    + exists e. reflexivity.
    + rewrite H. exists (ValueError ""). reflexivity.
  - reflexivity.
Qed.

(** A construction in a world where every step before the assignment
    succeeds: 'solar' is refused, 'pv' is stored. *)
Lemma res_type_validated_on_assignment_witness :
  init_attributes Samples.world_fine "first" (50005 # 10) (60%R, 60%R)
    HISTORICAL_POWER_DATA_PATH ∅ = (inr Samples.attributes_fine, ∅) /\
  init Samples.world_fine "first" (50005 # 10) (60%R, 60%R)
    HISTORICAL_POWER_DATA_PATH "solar" ∅ = (inl (ValueError ""), ∅) /\
  exists self',
    init Samples.world_fine "first" (50005 # 10) (60%R, 60%R)
      HISTORICAL_POWER_DATA_PATH "pv" ∅ = (inr self', ∅) /\
    res_type self' = inr "pv".
Proof.
  assert (Hattr : init_attributes Samples.world_fine "first" (50005 # 10) (60%R, 60%R)
                    HISTORICAL_POWER_DATA_PATH ∅ = (inr Samples.attributes_fine, ∅))
    by reflexivity.
  split; [exact Hattr |].
  destruct res_type_validated_on_assignment as (_ & Hinit & _).
  split.
  - apply (Hinit _ _ _ _ _ "solar" _ _ _ Hattr). split; discriminate.
  - apply (Hinit _ _ _ _ _ "pv" _ _ _ Hattr). right. reflexivity.
Defined.

(** C10: on an object whose [res_type] is 'wind' or 'pv', assigning a value
    other than these two raises and leaves the object, and with it the
    stored [res_type], as it was. *)
Theorem res_type_setter_atomic (self : RESMeasuringPoint) (old v : string) :
  self_res_type self = Some old ->
  old = "wind" \/ old = "pv" ->
  v <> "wind" /\ v <> "pv" ->
  res_type_setter v self = (inl (ValueError ""), self) /\
  res_type (res_type_setter v self).2 = inr old.
Proof.
  intros Hold _ Hv. apply not_in_wind_pv_true in Hv.
  unfold res_type_setter. rewrite Hv. split; [reflexivity |].
  simpl. unfold res_type. rewrite Hold. reflexivity.
Qed.

(** Assigning 'solar' to the sample object, whose [res_type] is 'wind'. *)
Lemma res_type_setter_atomic_witness :
  self_res_type Samples.point = Some "wind" /\
  res_type_setter "solar" Samples.point = (inl (ValueError ""), Samples.point) /\
  res_type (res_type_setter "solar" Samples.point).2 = inr "wind".
Proof.
  split; [reflexivity |].
  apply (res_type_setter_atomic Samples.point "wind" "solar").
  - reflexivity.
  - left. reflexivity.
  - split; discriminate.
Defined.

End ResType.

(** ** Resampling and interpolation *)

Section Resample.

Lemma foldr_min_le (t : Z) (ts : list Z) :
  foldr Z.min t ts <= t /\ Forall (fun x => foldr Z.min t ts <= x) ts.
Proof.
  induction ts as [|x ts [IH1 IH2]]; simpl.
  - split; [lia | constructor].
  - split; [lia |]. constructor; [lia |].
    eapply Forall_impl; [exact IH2 |]. simpl. intros; lia.
Qed.

Lemma foldr_max_ge (t : Z) (ts : list Z) :
  t <= foldr Z.max t ts /\ Forall (fun x => x <= foldr Z.max t ts) ts.
Proof.
  induction ts as [|x ts [IH1 IH2]]; simpl.
  - split; [lia | constructor].
  - split; [lia |]. constructor; [lia |].
    eapply Forall_impl; [exact IH2 |]. simpl. intros; lia.
Qed.

Lemma foldr_max_elem (t : Z) (ts : list Z) : foldr Z.max t ts ∈ t :: ts.
Proof.
  induction ts as [|x ts IH]; simpl.
  - left.
  - destruct (Z.max_spec x (foldr Z.max t ts)) as [[_ ->] | [_ ->]].
    + apply elem_of_cons in IH as [-> | IH]; [left | right; right; exact IH].
    + right; left.
Qed.

(** The labels of a rule: label [i] lies [i] periods after the first one,
    which is not after the earliest index entry, and no label is after
    the latest index entry. *)
Lemma grid_lookup (freq : Z) (t0 : Z) (ts : list Z) (i : nat) (t : Z) :
  0 < freq ->
  Pandas.grid freq (t0 :: ts) !! i = Some t ->
  exists first,
    first <= foldr Z.min t0 ts /\
    t = first + Z.of_nat i * freq /\
    t <= foldr Z.max t0 ts.
Proof.
  intros Hfreq. unfold Pandas.grid.
  set (lo := foldr Z.min t0 ts). set (hi := foldr Z.max t0 ts).
  set (first := lo - (lo - Clock.normalize lo) mod freq).
  rewrite list_lookup_fmap. intros Hi.
  destruct (seq 0 (Z.to_nat ((hi - first) / freq + 1)) !! i) as [k |] eqn:Hk;
    simpl in Hi; [| discriminate].
  injection Hi as <-. apply lookup_seq in Hk as [-> Hk]. simpl.
  pose proof (Z.mod_pos_bound (lo - Clock.normalize lo) freq Hfreq) as Hmod.
  exists first. split; [unfold first; lia |]. split; [reflexivity |].
  assert (Hdiv : Z.of_nat i <= (hi - first) / freq) by lia.
  pose proof (Z.mul_div_le (hi - first) freq Hfreq) as Hle.
  nia.
Qed.

Lemma grid_nil (freq : Z) : Pandas.grid freq [] = [].
Proof. reflexivity. Qed.

(** Later labels are later in time. *)
Lemma grid_increasing (freq : Z) (index : list Z) (i j : nat) (ti tj : Z) :
  0 < freq ->
  Pandas.grid freq index !! i = Some ti ->
  Pandas.grid freq index !! j = Some tj ->
  (i < j)%nat -> ti < tj.
Proof.
  intros Hfreq Hi Hj Hij. destruct index as [|t0 ts]; [discriminate |].
  unfold Pandas.grid in Hi, Hj. rewrite list_lookup_fmap in Hi, Hj.
  destruct (seq _ _ !! i) as [ki |] eqn:Hki; [| discriminate].
  destruct (seq _ _ !! j) as [kj |] eqn:Hkj; [| discriminate].
  apply lookup_seq in Hki as [-> _]. apply lookup_seq in Hkj as [-> _].
  simpl in Hi, Hj. injection Hi as <-. injection Hj as <-. nia.
Qed.

Lemma grid_NoDup (freq : Z) (index : list Z) : 0 < freq -> NoDup (Pandas.grid freq index).
Proof.
  intros Hfreq. apply NoDup_alt. intros i j t Hi Hj.
  destruct (Nat.lt_trichotomy i j) as [H | [H | H]]; [| exact H |].
  - pose proof (grid_increasing _ _ _ _ _ _ Hfreq Hi Hj H). lia.
  - pose proof (grid_increasing _ _ _ _ _ _ Hfreq Hj Hi H). lia.
Qed.

Lemma reindex_lookup (df : list WeatherObservation) (index : list Z) (i : nat) :
  Pandas.reindex df index !! i
  = (fun t => match List.find (fun r => w_datetime r =? t) df with
              | Some r => r
              | None => Pandas.nan_row t
              end) <$> index !! i.
Proof. unfold Pandas.reindex. apply list_lookup_fmap. Qed.

Lemma reindex_labels (df : list WeatherObservation) (index : list Z) :
  map w_datetime (Pandas.reindex df index) = index.
Proof.
  unfold Pandas.reindex. induction index as [|t index IH]; simpl; [reflexivity |].
  f_equal; [| exact IH].
  destruct (List.find _ df) as [r |] eqn:Hr; [| reflexivity].
  apply List.find_some in Hr as [_ Hr]. lia.
Qed.

(** A label no row of the frame carries is reindexed to a row of NaN. *)
Lemma find_absent (df : list WeatherObservation) (t : Z) :
  (forall o, o ∈ df -> w_datetime o <> t) ->
  List.find (fun r => w_datetime r =? t) df = None.
Proof.
  intros H. destruct (List.find _ df) as [r |] eqn:Hr; [| reflexivity].
  apply List.find_some in Hr as [Hin Hr]. apply list_elem_of_In in Hin.
  specialize (H r Hin). lia.
Qed.

(** With unique labels, the row found for the label of a row is that row. *)
Lemma find_present (df : list WeatherObservation) (o : WeatherObservation) :
  NoDup (map w_datetime df) -> o ∈ df ->
  List.find (fun r => w_datetime r =? w_datetime o) df = Some o.
Proof.
  induction df as [|x df IH]; intros Hnd Ho; [inversion Ho |].
  simpl in *. apply NoDup_cons in Hnd as [Hx Hnd].
  destruct (w_datetime x =? w_datetime o) eqn:E.
  - apply elem_of_cons in Ho as [-> | Ho]; [reflexivity |].
    exfalso. apply Hx. apply Z.eqb_eq in E. rewrite E.
    apply (list_elem_of_fmap_2 w_datetime). exact Ho.
  - apply elem_of_cons in Ho as [-> | Ho]; [rewrite Z.eqb_refl in E; discriminate |].
    apply IH; assumption.
Qed.

Lemma length_interpolate_from (prev : option (Q * nat)) (col : list (option Q)) :
  length (Pandas.interpolate_from prev col) = length col.
Proof.
  revert prev. induction col as [|[v |] col IH]; intros prev; simpl;
    [reflexivity | |]; rewrite IH; reflexivity.
Qed.

(** Interpolation leaves a number where there is one. *)
Lemma interpolate_from_keeps (prev : option (Q * nat)) (col : list (option Q))
    (i : nat) (v : Q) :
  col !! i = Some (Some v) -> Pandas.interpolate_from prev col !! i = Some (Some v).
Proof.
  revert prev i. induction col as [|c col IH]; intros prev i Hi; [discriminate |].
  destruct i as [|i]; simpl in Hi.
  - injection Hi as ->. reflexivity.
  - destruct c as [c |]; simpl; apply IH; exact Hi.
Qed.

(** Interpolation leaves the NaN cells that no number precedes. *)
Lemma interpolate_from_leading (col : list (option Q)) (i : nat) :
  (forall j, (j <= i)%nat -> (j < length col)%nat -> col !! j = Some None) ->
  (i < length col)%nat ->
  Pandas.interpolate_from None col !! i = Some None.
Proof.
  revert i. induction col as [|c col IH]; intros i Hall Hi; [simpl in Hi; lia |].
  assert (Hc : c = None).
  { specialize (Hall 0%nat ltac:(lia) ltac:(simpl; lia)). simpl in Hall. congruence. }
  subst c. destruct i as [|i]; simpl; [reflexivity |].
  apply IH; [| simpl in Hi; lia].
  intros j Hj Hlen. apply (Hall (S j)); simpl; lia.
Qed.

Lemma interpolate_lookup (df : list WeatherObservation) (i : nat) (r : WeatherObservation) :
  Pandas.interpolate df !! i = Some r ->
  exists r0, df !! i = Some r0 /\ w_datetime r = w_datetime r0 /\
    forall f, cell f r = default None (Pandas.interpolate_1d (map (cell f) df) !! i).
Proof.
  unfold Pandas.interpolate. rewrite list_lookup_imap.
  destruct (df !! i) as [r0 |]; simpl; [| discriminate].
  intros [= <-]. exists r0. split; [reflexivity |]. split; [reflexivity |].
  intros []; reflexivity.
Qed.

Lemma interpolate_labels (df : list WeatherObservation) :
  map w_datetime (Pandas.interpolate df) = map w_datetime df.
Proof.
  apply list_eq. intros i. rewrite !list_lookup_fmap.
  unfold Pandas.interpolate. rewrite list_lookup_imap.
  destruct (df !! i); reflexivity.
Qed.

Lemma foldr_min_elem (t : Z) (ts : list Z) : foldr Z.min t ts ∈ t :: ts.
Proof.
  induction ts as [|x ts IH]; simpl.
  - left.
  - destruct (Z.min_spec x (foldr Z.min t ts)) as [[_ ->] | [_ ->]].
    + right; left.
    + apply elem_of_cons in IH as [-> | IH]; [left | right; right; exact IH].
Qed.

(** The first label of a rule is less than a period before the earliest
    index entry. *)
Lemma grid_first_bounds (freq lo : Z) :
  0 < freq ->
  lo - freq < lo - (lo - Clock.normalize lo) mod freq <= lo.
Proof.
  intros Hfreq. pose proof (Z.mod_pos_bound (lo - Clock.normalize lo) freq Hfreq). lia.
Qed.

Lemma grid_lookup_iff (freq t0 : Z) (ts : list Z) (i : nat) (t : Z) :
  let lo := foldr Z.min t0 ts in
  let hi := foldr Z.max t0 ts in
  let first := lo - (lo - Clock.normalize lo) mod freq in
  Pandas.grid freq (t0 :: ts) !! i = Some t <->
  t = first + Z.of_nat i * freq /\ (i < Z.to_nat ((hi - first) / freq + 1))%nat.
Proof.
  cbv zeta. unfold Pandas.grid. rewrite list_lookup_fmap. split.
  - intros H. destruct (seq _ _ !! i) as [k |] eqn:Hk; [| discriminate].
    apply lookup_seq in Hk as [-> Hk]. simpl in H. injection H as <-.
    split; [reflexivity | exact Hk].
  - intros [-> Hi]. rewrite lookup_seq_lt by exact Hi. reflexivity.
Qed.

(** The resampler sees the rows of the frame, each once. *)
Lemma sort_index_perm (df : list WeatherObservation) : Pandas.sort_index df ≡ₚ df.
Proof. apply merge_sort_Permutation. Qed.

Lemma elem_of_sort_index (df : list WeatherObservation) (o : WeatherObservation) :
  o ∈ Pandas.sort_index df <-> o ∈ df.
Proof. rewrite sort_index_perm. reflexivity. Qed.

Lemma Forall_sort_index (P : WeatherObservation -> Prop) (df : list WeatherObservation) :
  Forall P (Pandas.sort_index df) <-> Forall P df.
Proof. rewrite sort_index_perm. reflexivity. Qed.

Lemma NoDup_sort_index (df : list WeatherObservation) :
  NoDup (map w_datetime (Pandas.sort_index df)) <-> NoDup (map w_datetime df).
Proof.
  assert (H : map w_datetime (Pandas.sort_index df) ≡ₚ map w_datetime df)
    by (apply (fmap_Permutation w_datetime), sort_index_perm).
  rewrite H. reflexivity.
Qed.

(** Entries at equal distances: entry [j] lies [j] distances after the
    first, and with a positive distance the first is the earliest. *)
Lemma spaced_lookup (d t : Z) (ts : list Z) (j : nat) (x : Z) :
  Pandas.spaced d t ts = true -> (t :: ts) !! j = Some x -> x = t + Z.of_nat j * d.
Proof.
  revert t j. induction ts as [|t' ts IH]; intros t j Hsp Hj.
  - destruct j as [|j]; simpl in Hj; [injection Hj as <-; lia | discriminate].
  - simpl in Hsp. apply andb_prop in Hsp as [Hd Hsp]. apply Z.eqb_eq in Hd.
    destruct j as [|j]; [simpl in Hj; injection Hj as <-; lia |].
    change ((t :: t' :: ts) !! S j) with ((t' :: ts) !! j) in Hj.
    rewrite (IH t' j Hsp Hj). lia.
Qed.

Lemma spaced_min (d t : Z) (ts : list Z) :
  Pandas.spaced d t ts = true -> 0 < d -> foldr Z.min t ts = t.
Proof.
  intros Hsp Hd. destruct (foldr_min_le t ts) as [Hle _].
  pose proof (foldr_min_elem t ts) as Hin.
  apply list_elem_of_lookup in Hin as [j Hj].
  pose proof (spaced_lookup _ _ _ _ _ Hsp Hj). nia.
Qed.

(** A frequency is inferred from entries at equal, positive distances
    only. *)
Lemma inferred_tick_spaced (ax : list Z) (d : Z) :
  Pandas.inferred_tick ax = Some d ->
  0 < d /\ exists t0 ts, ax = t0 :: ts /\ Pandas.spaced d t0 ts = true.
Proof.
  unfold Pandas.inferred_tick. destruct (length ax <? 3)%nat; [discriminate |].
  destruct (Pandas.unique_delta ax) as [d' |] eqn:Hu; [| discriminate].
  destruct (d' <=? 0) eqn:Hpos; [discriminate |].
  intros H. assert (Hd : d' = d).
  { destruct (d' mod Clock.NS_PER_DAY =? 0); [| congruence].
    destruct (Pandas.unique_delta (map _ ax)), (Pandas.month_position_check ax);
      try discriminate;
      destruct ((d' / Clock.NS_PER_DAY) mod 7 =? 0); congruence. }
  subst d'. split; [lia |].
  unfold Pandas.unique_delta in Hu. destruct ax as [|x0 [|x1 rest]]; try discriminate.
  destruct (Pandas.spaced (x1 - x0) x1 rest) eqn:Hsp; [| discriminate].
  injection Hu as <-. exists x0, (x1 :: rest). split; [reflexivity |].
  simpl. rewrite Z.eqb_refl. exact Hsp.
Qed.

Lemma set_index_lookup (obj : list WeatherObservation) (index : list Z) (i : nat)
    (r : WeatherObservation) :
  Pandas.set_index obj index !! i = Some r ->
  exists o, obj !! i = Some o /\ index !! i = Some (w_datetime r) /\
            forall f, cell f r = cell f o.
Proof.
  unfold Pandas.set_index. rewrite lookup_zip_with.
  destruct (obj !! i) as [o |]; [| discriminate].
  destruct (index !! i) as [t |]; [| discriminate].
  simpl. intros [= <-]. exists o. split; [reflexivity |]. split; [reflexivity |].
  intros []; reflexivity.
Qed.

Lemma set_index_labels (obj : list WeatherObservation) (index : list Z) :
  length obj = length index -> map w_datetime (Pandas.set_index obj index) = index.
Proof.
  revert index. induction obj as [|o obj IH]; intros [|t index] Hlen;
    try discriminate; [reflexivity |].
  simpl. f_equal. apply IH. simpl in Hlen. lia.
Qed.

(** What [_upsample] returns when it returns: a frame under the labels of
    the rule, built in one of two ways. *)
Lemma upsample_inr (freq : Z) (df frame : list WeatherObservation) :
  Pandas.upsample freq df = inr frame ->
  map w_datetime frame
  = Pandas.grid freq (map w_datetime (Pandas.sort_index df)) /\
  ((Pandas.equal_sampling freq (Pandas.sort_index df) = true /\
    frame = Pandas.set_index (Pandas.sort_index df)
              (Pandas.grid freq (map w_datetime (Pandas.sort_index df)))) \/
   (Pandas.equal_sampling freq (Pandas.sort_index df) = false /\
    NoDup (map w_datetime (Pandas.sort_index df)) /\
    frame = Pandas.reindex (Pandas.sort_index df)
              (Pandas.grid freq (map w_datetime (Pandas.sort_index df))))).
Proof.
  unfold Pandas.upsample. cbv zeta.
  destruct (Pandas.equal_sampling freq (Pandas.sort_index df)) eqn:Heq.
  - intros [= <-]. split; [| left; split; reflexivity].
    apply set_index_labels.
    unfold Pandas.equal_sampling in Heq. apply andb_prop in Heq as [_ Hlen].
    apply Nat.eqb_eq in Hlen. exact Hlen.
  - case_bool_decide as Hnd; [| discriminate].
    intros [= <-]. split; [apply reindex_labels |]. right. repeat split. exact Hnd.
Qed.

Lemma resample_interpolate_inr (n : Z) (df out : list WeatherObservation) :
  Pandas.resample_interpolate n df = inr out ->
  0 < n /\
  exists frame, Pandas.upsample (Clock.seconds n) df = inr frame /\
                out = Pandas.interpolate frame.
Proof.
  unfold Pandas.resample_interpolate.
  destruct (n <=? 0) eqn:Hn; [discriminate |].
  destruct (Pandas.upsample (Clock.seconds n) df) as [e | frame]; [discriminate |].
  intros [= <-]. split; [lia |]. exists frame. split; reflexivity.
Qed.

(** It returns on every frame with unique labels and positive period. *)
Lemma resample_interpolate_total (n : Z) (df : list WeatherObservation) :
  0 < n -> NoDup (map w_datetime df) ->
  exists out, Pandas.resample_interpolate n df = inr out.
Proof.
  intros Hn Hnd. unfold Pandas.resample_interpolate, Pandas.upsample.
  destruct (n <=? 0) eqn:E; [lia |]. cbv zeta.
  destruct (Pandas.equal_sampling _ _); [eexists; reflexivity |].
  rewrite bool_decide_eq_true_2 by (apply NoDup_sort_index; exact Hnd).
  eexists. reflexivity.
Qed.

Lemma resample_labels (n : Z) (df out : list WeatherObservation) :
  Pandas.resample_interpolate n df = inr out ->
  map w_datetime out
  = Pandas.grid (Clock.seconds n) (map w_datetime (Pandas.sort_index df)).
Proof.
  intros H. apply resample_interpolate_inr in H as (_ & frame & Hup & ->).
  rewrite interpolate_labels. apply (upsample_inr _ _ _ Hup).
Qed.

Lemma resample_lookup_label (n : Z) (df out : list WeatherObservation)
    (i : nat) (r : WeatherObservation) :
  Pandas.resample_interpolate n df = inr out ->
  out !! i = Some r ->
  Pandas.grid (Clock.seconds n) (map w_datetime (Pandas.sort_index df)) !! i
  = Some (w_datetime r).
Proof.
  intros Hout Hr. rewrite <- (resample_labels _ _ _ Hout), list_lookup_fmap, Hr.
  reflexivity.
Qed.

Lemma seconds_pos (n : Z) : 0 < n -> 0 < Clock.seconds n.
Proof. unfold Clock.seconds, Clock.NS_PER_SEC. lia. Qed.

(** In a frame that has the frequency of the rule, the row in place [j] of
    the sorted frame lies in the period that starts at label [j]. *)
Lemma equal_sampling_rows (freq : Z) (obj : list WeatherObservation) :
  Pandas.equal_sampling freq obj = true ->
  0 < freq /\
  exists t0 first,
    first <= t0 < first + freq /\
    (forall j o, obj !! j = Some o -> w_datetime o = t0 + Z.of_nat j * freq) /\
    (forall i t, Pandas.grid freq (map w_datetime obj) !! i = Some t ->
                 t = first + Z.of_nat i * freq).
Proof.
  unfold Pandas.equal_sampling. intros H. apply andb_prop in H as [H _].
  apply bool_decide_eq_true_1 in H.
  apply inferred_tick_spaced in H as (Hd & t0 & ts & Hax & Hsp).
  split; [exact Hd |].
  exists t0, (t0 - (t0 - Clock.normalize t0) mod freq).
  split; [pose proof (grid_first_bounds freq t0 Hd); lia |]. split.
  - intros j o Hj. apply (spaced_lookup _ _ _ _ _ Hsp).
    rewrite <- Hax, list_lookup_fmap, Hj. reflexivity.
  - intros i t Hi. rewrite Hax in Hi. apply grid_lookup_iff in Hi as [Hi _].
    rewrite (spaced_min _ _ _ Hsp Hd) in Hi. exact Hi.
Qed.

Lemma interpolate_1d_head (col : list (option Q)) :
  Pandas.interpolate_1d col !! 0%nat = col !! 0%nat.
Proof. destruct col as [|[v |] col]; reflexivity. Qed.

(** C6, the claim as stated fails: the weather of the object [__init__]
    returns in the sample world is observed at 23:22, 23:37 and 23:52, a
    quarter of an hour apart, and the period of the readings is a quarter
    of an hour; the resampled table holds the three observations under the
    labels 23:15, 23:30 and 23:45, so its first row, seven minutes before
    the first observation, has the cloud reading 50. *)
Lemma resample_moves_values_before_first_observation :
  init Samples.world_shifted "first" (50005 # 10) (60%R, 60%R)
    HISTORICAL_POWER_DATA_PATH "wind" ∅ = (inr Samples.point_shifted, ∅) /\
  sampling_period (self_hist_df Samples.point_shifted) = inr 900 /\
  Pandas.resample_interpolate 900 (get_weather Samples.point_shifted)
  = inr [Samples.obs (Clock.datetime 2019 12 31 23 15 0) (Some 50%Q);
         Samples.obs (Clock.datetime 2019 12 31 23 30 0) (Some 60%Q);
         Samples.obs (Clock.datetime 2019 12 31 23 45 0) (Some 70%Q)] /\
  forallb (fun o => Clock.datetime 2019 12 31 23 15 0 <? w_datetime o)
          (get_weather Samples.point_shifted) = true /\
  cell Clouds (Samples.obs (Clock.datetime 2019 12 31 23 15 0) (Some 50%Q)) = Some 50%Q.
Proof. repeat split. Qed.

(** C6, amended: no resampled row is labelled after the last original
    observation.  A resampled row labelled before the first original
    observation has no value in any weather column when the frame is
    reindexed; when the frame has the frequency of the rule, so that it
    keeps its rows under the labels of the rule, such a row is the first
    row and holds the cells of the earliest observation. *)
Theorem resample_no_extrapolation (n : Z) (df out : list WeatherObservation)
    (i : nat) (r : WeatherObservation) :
  Pandas.resample_interpolate n df = inr out ->
  out !! i = Some r ->
  (exists o, o ∈ df /\ w_datetime r <= w_datetime o) /\
  (Pandas.equal_sampling (Clock.seconds n) (Pandas.sort_index df) = false ->
   Forall (fun o => w_datetime r < w_datetime o) df ->
   forall f, cell f r = None) /\
  (Pandas.equal_sampling (Clock.seconds n) (Pandas.sort_index df) = true ->
   Forall (fun o => w_datetime r < w_datetime o) df ->
   i = 0%nat /\
   exists o0, o0 ∈ df /\ Forall (fun o => w_datetime o0 <= w_datetime o) df /\
              forall f, cell f r = cell f o0).
Proof.
  intros Hout Hr.
  pose proof (resample_lookup_label _ _ _ _ _ Hout Hr) as Hg.
  apply resample_interpolate_inr in Hout as (Hn & frame & Hup & ->).
  apply seconds_pos in Hn.
  apply upsample_inr in Hup as [Hlab Hway].
  set (obj := Pandas.sort_index df) in *.
  set (g := Pandas.grid (Clock.seconds n) (map w_datetime obj)) in *.
  apply interpolate_lookup in Hr as (r0 & Hr0 & Ht & Hcell).
  split; [| split].
  - destruct (map w_datetime obj) as [|t0 ts] eqn:Hax; [discriminate |].
    apply grid_lookup in Hg as (first & _ & _ & Hle); [| exact Hn].
    pose proof (foldr_max_elem t0 ts) as Hmax. rewrite <- Hax in Hmax.
    apply list_elem_of_fmap in Hmax as (o & Ho & Hin).
    exists o. split; [apply elem_of_sort_index; exact Hin | lia].
  - intros Heq Hbefore f. destruct Hway as [[Heq' _] | (_ & Hnd & ->)]; [congruence |].
    apply Forall_sort_index in Hbefore. fold obj in Hbefore.
    rewrite Hcell. unfold Pandas.interpolate_1d.
    rewrite interpolate_from_leading; [reflexivity | |].
    + intros j Hj Hlen. rewrite length_map in Hlen.
      rewrite list_lookup_fmap, reindex_lookup.
      destruct (g !! j) as [tj |] eqn:Hgj.
      * cbn [fmap option_fmap option_map].
        rewrite find_absent; [destruct f; reflexivity |].
        intros o Ho. rewrite Forall_forall in Hbefore. specialize (Hbefore o Ho).
        destruct (decide (j = i)) as [-> | Hne].
        -- rewrite Hg in Hgj. injection Hgj as <-. lia.
        -- pose proof (grid_increasing _ _ _ _ _ _ Hn Hgj Hg ltac:(lia)). lia.
      * apply lookup_ge_None in Hgj. unfold Pandas.reindex in Hlen.
        rewrite length_map in Hlen. lia.
    + rewrite length_map. eapply lookup_lt_Some. exact Hr0.
  - intros Heq Hbefore. destruct Hway as [[_ ->] | (Hne & _)]; [| congruence].
    apply equal_sampling_rows in Heq as (Hd & t0 & first & Hfirst & Hobj & Hgrid).
    fold g in Hgrid. apply Hgrid in Hg.
    pose proof (set_index_lookup _ _ _ _ Hr0) as (o' & Ho' & _ & Hcells).
    assert (Hhead : exists o0, obj !! 0%nat = Some o0).
    { destruct obj as [|o0 obj']; [discriminate |]. exists o0. reflexivity. }
    destruct Hhead as [o0 Ho0].
    assert (Ho0in : o0 ∈ df).
    { apply elem_of_sort_index. eapply list_elem_of_lookup_2. exact Ho0. }
    pose proof (Hobj _ _ Ho0) as Ht0. simpl in Ht0.
    assert (Hi : i = 0%nat).
    { rewrite Forall_forall in Hbefore. specialize (Hbefore o0 Ho0in). nia. }
    subst i. split; [reflexivity |]. exists o0. split; [exact Ho0in |]. split.
    + apply Forall_forall. intros o Ho. apply elem_of_sort_index in Ho. fold obj in Ho.
      apply list_elem_of_lookup in Ho as [j Hj]. rewrite (Hobj _ _ Hj). nia.
    + intros f. rewrite Hcell, interpolate_1d_head, list_lookup_fmap, Hr0.
      simpl. rewrite Hcells. congruence.
Qed.

(** The resampling of two observations off the quarter-hour labels, which
    is a reindexing: the label 00:00 lies before both and is a row of
    NaN. *)
Lemma resample_no_extrapolation_witness :
  Pandas.resample_interpolate 900 Samples.weather_off_grid
  = inr [Pandas.nan_row (Clock.datetime 2020 6 1 0 0 0);
         Pandas.nan_row (Clock.datetime 2020 6 1 0 15 0)] /\
  Pandas.equal_sampling (Clock.seconds 900) (Pandas.sort_index Samples.weather_off_grid)
  = false /\
  cell Clouds (Pandas.nan_row (Clock.datetime 2020 6 1 0 0 0)) = None.
Proof.
  assert (H : Pandas.resample_interpolate 900 Samples.weather_off_grid
              = inr [Pandas.nan_row (Clock.datetime 2020 6 1 0 0 0);
                     Pandas.nan_row (Clock.datetime 2020 6 1 0 15 0)])
    by (vm_compute; reflexivity).
  assert (Heq : Pandas.equal_sampling (Clock.seconds 900)
                  (Pandas.sort_index Samples.weather_off_grid) = false)
    by (vm_compute; reflexivity).
  split; [exact H |]. split; [exact Heq |].
  destruct (resample_no_extrapolation 900 Samples.weather_off_grid _ 0
              (Pandas.nan_row (Clock.datetime 2020 6 1 0 0 0)) H eq_refl)
    as (_ & Hnan & _).
  apply (Hnan Heq). repeat constructor.
Defined.

(** A NaN after the last number of a column repeats that number: at 01:00,
    where the observation has no cloud reading, the resampled table repeats
    the reading of 00:00. *)
Example interpolate_repeats_last_number :
  Pandas.resample_interpolate 3600
    [Samples.obs (Clock.datetime 2020 6 1 0 0 0) (Some 50%Q);
     Samples.obs (Clock.datetime 2020 6 1 1 0 0) None]
  = inr [Samples.obs (Clock.datetime 2020 6 1 0 0 0) (Some 50%Q);
         Samples.obs (Clock.datetime 2020 6 1 1 0 0) (Some 50%Q)].
Proof. vm_compute. reflexivity. Qed.

(** Two observations half an hour apart, resampled by the quarter hour:
    the label in between lies on the line through them. *)
Example interpolate_half_way :
  Pandas.resample_interpolate 900
    [Samples.obs (Clock.datetime 2020 6 1 0 0 0) (Some 50%Q);
     Samples.obs (Clock.datetime 2020 6 1 0 30 0) (Some 70%Q)]
  = inr [Samples.obs (Clock.datetime 2020 6 1 0 0 0) (Some 50%Q);
         Samples.obs (Clock.datetime 2020 6 1 0 15 0) (Some 60%Q);
         Samples.obs (Clock.datetime 2020 6 1 0 30 0) (Some 70%Q)].
Proof. vm_compute. reflexivity. Qed.

(** C7, the claim as stated fails: in the hourly series whose 01:00 row
    has no cloud reading, resampling by the hour puts 60 at 01:00, where
    the original has no value. *)
Lemma resample_fills_missing_observation :
  Pandas.resample_interpolate 3600 Samples.weather_gap
  = inr [Samples.obs (Clock.datetime 2020 6 1 0 0 0) (Some 50%Q);
         Samples.obs (Clock.datetime 2020 6 1 1 0 0) (Some 60%Q);
         Samples.obs (Clock.datetime 2020 6 1 2 0 0) (Some 70%Q)] /\
  Samples.weather_gap !! 1%nat = Some (Samples.obs (Clock.datetime 2020 6 1 1 0 0) None).
Proof. split; vm_compute; reflexivity. Qed.

(** C7, amended: at a resampled label that is the label of an original
    observation, every weather column in which that observation has a
    value holds that value. *)
Theorem resample_keeps_observed_values (n : Z) (df out : list WeatherObservation)
    (i : nat) (r o : WeatherObservation) (f : wfield) (v : Q) :
  Pandas.resample_interpolate n df = inr out ->
  out !! i = Some r ->
  o ∈ df ->
  w_datetime o = w_datetime r ->
  cell f o = Some v ->
  cell f r = Some v.
Proof.
  intros Hout Hr Ho Ht Hv.
  pose proof (resample_lookup_label _ _ _ _ _ Hout Hr) as Hg.
  apply resample_interpolate_inr in Hout as (Hn & frame & Hup & ->).
  apply seconds_pos in Hn.
  apply upsample_inr in Hup as [Hlab Hway].
  set (obj := Pandas.sort_index df) in *.
  set (g := Pandas.grid (Clock.seconds n) (map w_datetime obj)) in *.
  apply interpolate_lookup in Hr as (r0 & Hr0 & Ht0 & Hcell).
  rewrite Hcell. clear Hcell.
  apply elem_of_sort_index in Ho. fold obj in Ho.
  assert (Hv0 : cell f r0 = Some v).
  { destruct Hway as [[Heq ->] | (_ & Hnd & ->)].
    - apply equal_sampling_rows in Heq as (Hd & t0 & first & Hfirst & Hobj & Hgrid).
      fold g in Hgrid. apply Hgrid in Hg.
      apply set_index_lookup in Hr0 as (o' & Ho' & _ & Hcells).
      apply list_elem_of_lookup in Ho as [j Hj].
      pose proof (Hobj _ _ Hj) as Htj.
      assert (Hij : j = i) by nia.
      subst j. rewrite Hcells. congruence.
    - assert (Hro : r0 = o).
      { pose proof Hr0 as Hrow. rewrite reindex_lookup, Hg in Hrow.
        cbn [fmap option_fmap option_map] in Hrow. injection Hrow as Hrow.
        rewrite <- Ht, (find_present obj o Hnd Ho) in Hrow. congruence. }
      subst r0. exact Hv. }
  unfold Pandas.interpolate_1d.
  erewrite interpolate_from_keeps; [reflexivity |].
  rewrite list_lookup_fmap, Hr0. simpl. rewrite Hv0. reflexivity.
Qed.

(** The reading of 70 at 02:00 is kept. *)
Lemma resample_keeps_observed_values_witness :
  Pandas.resample_interpolate 3600 Samples.weather_gap
  = inr [Samples.obs (Clock.datetime 2020 6 1 0 0 0) (Some 50%Q);
         Samples.obs (Clock.datetime 2020 6 1 1 0 0) (Some 60%Q);
         Samples.obs (Clock.datetime 2020 6 1 2 0 0) (Some 70%Q)] /\
  cell Clouds (Samples.obs (Clock.datetime 2020 6 1 2 0 0) (Some 70%Q)) = Some 70%Q.
Proof.
  assert (H : Pandas.resample_interpolate 3600 Samples.weather_gap
              = inr [Samples.obs (Clock.datetime 2020 6 1 0 0 0) (Some 50%Q);
                     Samples.obs (Clock.datetime 2020 6 1 1 0 0) (Some 60%Q);
                     Samples.obs (Clock.datetime 2020 6 1 2 0 0) (Some 70%Q)])
    by (vm_compute; reflexivity).
  split; [exact H |].
  apply (resample_keeps_observed_values 3600 Samples.weather_gap _ 2 _
           (Samples.obs (Clock.datetime 2020 6 1 2 0 0) (Some 70%Q)) Clouds 70%Q H).
  - reflexivity.
  - do 2 right. left.
  - reflexivity.
  - reflexivity.
Defined.

End Resample.

(** ** The fused table *)

Section Fusion.

(** Among rows with unique labels, at most one carries a given label. *)
Lemma length_filter_label (right : list WeatherObservation) (k : Z) :
  NoDup (map w_datetime right) ->
  length (List.filter (fun r => w_datetime r =? k) right)
  = if bool_decide (k ∈ map w_datetime right) then 1%nat else 0%nat.
Proof.
  induction right as [|x right IH]; intros Hnd; simpl; [reflexivity |].
  simpl in Hnd. apply NoDup_cons in Hnd as [Hx Hnd]. specialize (IH Hnd).
  destruct (w_datetime x =? k) eqn:E.
  - apply Z.eqb_eq in E. subst k. simpl. rewrite IH.
    rewrite (bool_decide_eq_false_2 _ Hx).
    rewrite bool_decide_eq_true_2 by left. reflexivity.
  - apply Z.eqb_neq in E. rewrite IH.
    destruct (bool_decide (k ∈ map w_datetime right)) eqn:Hk.
    + apply bool_decide_eq_true_1 in Hk.
      rewrite bool_decide_eq_true_2 by (right; exact Hk). reflexivity.
    + apply bool_decide_eq_false_1 in Hk.
      rewrite bool_decide_eq_false_2; [reflexivity |].
      intros [Hk1 | Hk2]%elem_of_cons; [congruence | exact (Hk Hk2)].
Qed.

(** The inner join keeps, in their order, the left rows whose key is a
    label of the right frame, each once. *)
Lemma merge_left_rows (left : list PowerSample) (right : list WeatherObservation) :
  NoDup (map w_datetime right) ->
  map fst (Pandas.merge left right)
  = filter (fun s => p_datetime s ∈ map w_datetime right) left.
Proof.
  intros Hnd. unfold Pandas.merge.
  induction left as [|s left IH]; [reflexivity |].
  cbn [flat_map]. rewrite map_app, IH, filter_cons. clear IH.
  pose proof (length_filter_label right (p_datetime s) Hnd) as Hlen.
  destruct (List.filter _ right) as [|r [|r' rs]]; simpl in Hlen |- *.
  - case_bool_decide as Hs; [discriminate |]. rewrite decide_False by exact Hs. reflexivity.
  - case_bool_decide as Hs; [| discriminate]. rewrite decide_True by exact Hs. reflexivity.
  - case_bool_decide; discriminate.
Qed.

(** Every pair of the join has equal keys, and its right row is a row of
    the right frame. *)
Lemma merge_pairs (left : list PowerSample) (right : list WeatherObservation)
    (s : PowerSample) (r : WeatherObservation) :
  (s, r) ∈ Pandas.merge left right -> w_datetime r = p_datetime s /\ r ∈ right.
Proof.
  unfold Pandas.merge. rewrite list_elem_of_In, in_flat_map.
  intros (s' & _ & Hin). apply in_map_iff in Hin as (r' & [= <- <-] & Hr).
  apply filter_In in Hr as [Hr Hk]. split; [lia | apply list_elem_of_In; exact Hr].
Qed.

Lemma length_filter_all {A : Type} (P : A -> Prop) `{!forall x, Decision (P x)} (l : list A) :
  length (filter P l) = length l <-> Forall P l.
Proof.
  induction l as [|x l IH]; [split; [constructor | reflexivity] |].
  rewrite filter_cons. pose proof (length_filter P l) as Hle.
  destruct (decide (P x)) as [Hx | Hx]; simpl.
  - rewrite Forall_cons. split.
    + intros Hlen. split; [exact Hx |]. apply IH. lia.
    + intros [_ Hall]. apply IH in Hall. lia.
  - split; [lia |]. intros Hall. apply Forall_cons in Hall as [Hall _]. contradiction.
Qed.

(** C2, the claim as stated fails: the object [__init__] returns in the
    sample world holds three readings, at 2020-01-01 00:00 and at 23:30 and
    23:00 of the day before, and weather observed at 22:00 and 23:00 of
    that day; the aligned weather ends with the label 23:00, and the fused
    table has one row for three readings. *)
Lemma fused_drops_unmatched_reading :
  init Samples.world_evening "first" (50005 # 10) (60%R, 60%R)
    HISTORICAL_POWER_DATA_PATH "wind" ∅ = (inr Samples.point_evening, ∅) /\
  data_collector Samples.point_evening = inr Samples.fused_evening /\
  length Samples.fused_evening = 1%nat /\
  length (self_hist_df Samples.point_evening) = 3%nat.
Proof. repeat split. Qed.

(** C2, amended: the readings stamped on the fused rows are, each once,
    the readings whose timestamp is a label of the aligned weather table;
    so the fused table never has more rows than there are readings, and
    has as many exactly when every reading's timestamp is such a label. *)
Theorem fused_rows_are_matched_readings (self : RESMeasuringPoint) (out : list FusedRecord) :
  data_collector self = inr out ->
  exists (period : Z) (aligned : list WeatherObservation),
    sampling_period (self_hist_df self) = inr period /\
    Pandas.resample_interpolate period (self_weather self) = inr aligned /\
    map (fun row => {| p_datetime := f_datetime row; power := f_power row |}) out
    ≡ₚ filter (fun s => p_datetime s ∈ map w_datetime aligned) (self_hist_df self) /\
    (length out <= length (self_hist_df self))%nat /\
    (length out = length (self_hist_df self) <->
     Forall (fun s => p_datetime s ∈ map w_datetime aligned) (self_hist_df self)).
Proof.
  unfold data_collector. intros H.
  destruct (sampling_period (self_hist_df self)) as [e | period]; [discriminate |].
  simpl in H.
  destruct (Pandas.resample_interpolate period (self_weather self)) as [e | aligned] eqn:Hal;
    [discriminate |].
  simpl in H. destruct (res_type self) as [e | rt]; [discriminate |].
  simpl in H. injection H as <-.
  exists period, aligned. split; [reflexivity |]. split; [exact Hal |].
  assert (Hnd : NoDup (map w_datetime aligned)).
  { rewrite (resample_labels _ _ _ Hal). apply grid_NoDup, seconds_pos.
    apply resample_interpolate_inr in Hal. tauto. }
  assert (Hrows : map (fun row => {| p_datetime := f_datetime row; power := f_power row |})
                      (map (fused_row self rt) (Pandas.merge (self_hist_df self) aligned))
                  = filter (fun s => p_datetime s ∈ map w_datetime aligned) (self_hist_df self)).
  { rewrite <- (merge_left_rows _ _ Hnd), map_map. apply map_ext.
    intros [[t kw] r]. reflexivity. }
  split; [rewrite Hrows; reflexivity |].
  assert (Hlen : length (map (fused_row self rt) (Pandas.merge (self_hist_df self) aligned))
                 = length (filter (fun s => p_datetime s ∈ map w_datetime aligned)
                                  (self_hist_df self))).
  { rewrite <- Hrows, !length_map. reflexivity. }
  rewrite Hlen. split; [apply length_filter | apply length_filter_all].
Qed.

(** Every fused row carries the [res_type], the name and the installed
    power of the object. *)
Lemma fused_rows_stamped (self : RESMeasuringPoint) (out : list FusedRecord) (row : FusedRecord) :
  data_collector self = inr out -> row ∈ out ->
  res_type self = inr (f_res_type row) /\
  f_name row = self_name self /\
  f_installed_power row = self_installed_power self.
Proof.
  unfold data_collector. intros H Hrow.
  destruct (sampling_period (self_hist_df self)) as [e | period]; [discriminate |].
  simpl in H.
  destruct (Pandas.resample_interpolate period (self_weather self)) as [e | aligned];
    [discriminate |].
  simpl in H. destruct (res_type self) as [e | rt]; [discriminate |].
  simpl in H. injection H as <-.
  apply list_elem_of_fmap in Hrow as (pair & -> & _). repeat split.
Qed.

(** The object of the sample world: of its three readings, the one at 23:00
    is matched. *)
Lemma fused_rows_are_matched_readings_witness :
  init Samples.world_evening "first" (50005 # 10) (60%R, 60%R)
    HISTORICAL_POWER_DATA_PATH "wind" ∅ = (inr Samples.point_evening, ∅) /\
  data_collector Samples.point_evening = inr Samples.fused_evening /\
  exists (period : Z) (aligned : list WeatherObservation),
    sampling_period (self_hist_df Samples.point_evening) = inr period /\
    Pandas.resample_interpolate period (self_weather Samples.point_evening) = inr aligned /\
    map (fun row => {| p_datetime := f_datetime row; power := f_power row |})
        Samples.fused_evening
    ≡ₚ filter (fun s => p_datetime s ∈ map w_datetime aligned)
              (self_hist_df Samples.point_evening) /\
    (length Samples.fused_evening <= length (self_hist_df Samples.point_evening))%nat /\
    (length Samples.fused_evening = length (self_hist_df Samples.point_evening) <->
     Forall (fun s => p_datetime s ∈ map w_datetime aligned)
            (self_hist_df Samples.point_evening)).
Proof.
  assert (H : data_collector Samples.point_evening = inr Samples.fused_evening)
    by reflexivity.
  split; [reflexivity |]. split; [exact H |].
  exact (fused_rows_are_matched_readings Samples.point_evening Samples.fused_evening H).
Defined.

End Fusion.

(** * Further properties of the code *)

(** ** Range of the distance *)

Section HaversineRange.

Local Open Scope R_scope.

Lemma asin_nonneg (x : R) : 0 <= x <= 1 -> 0 <= asin x.
Proof.
  intros [[Hx | <-] Hx1].
  - rewrite <- asin_0. left. apply asin_lt; lra.
  - rewrite asin_0. lra.
Qed.

Lemma sqrt_unit (a : R) : 0 <= a <= 1 -> 0 <= sqrt a <= 1.
Proof.
  intros [Ha Ha1]. split; [apply sqrt_pos |].
  rewrite <- sqrt_1. apply sqrt_le_1_alt. exact Ha1.
Qed.

Lemma haversine_antipode : Geo.haversine 0 0 180 0 = 6371 * PI.
Proof.
  unfold Geo.haversine, Geo.radians. cbv zeta.
  replace ((0 * (PI / 180) - 0 * (PI / 180)) / 2) with 0 by lra.
  replace ((180 * (PI / 180) - 0 * (PI / 180)) / 2) with (PI / 2) by lra.
  replace (0 * (PI / 180)) with 0 by lra.
  rewrite sin_0, sin_PI2, cos_0.
  replace (0 ^ 2 + 1 * 1 * 1 ^ 2) with 1 by ring.
  rewrite sqrt_1, asin_1. field.
Qed.

(** X1: the distance [haversine] returns is never negative and never more
    than half the circumference of the sphere of radius 6371, whatever the
    four arguments are; two antipodal points of the equator are exactly
    that far apart. *)
Theorem haversine_between_zero_and_half_circumference :
  (forall lon1 lat1 lon2 lat2 : R,
      0 <= Geo.haversine lon1 lat1 lon2 lat2 <= 6371 * PI) /\
  Geo.haversine 0 0 180 0 = 6371 * PI.
Proof.
  split; [| exact haversine_antipode].
  intros lon1 lat1 lon2 lat2. unfold Geo.haversine. cbv zeta.
  pose proof (haversine_domain (Geo.radians lat1) (Geo.radians lat2)
                (Geo.radians lon2 - Geo.radians lon1)) as Ha.
  cbv zeta in Ha. apply sqrt_unit in Ha.
  pose proof (asin_nonneg _ Ha) as H0.
  destruct (asin_bound (sqrt (sin ((Geo.radians lat2 - Geo.radians lat1) / 2) ^ 2
                              + cos (Geo.radians lat1) * cos (Geo.radians lat2)
                                * sin ((Geo.radians lon2 - Geo.radians lon1) / 2) ^ 2)))
    as [_ H1].
  split; lra.
Qed.

End HaversineRange.

(** ** The station lookup as a whole *)

Section Lookup.

Local Open Scope R_scope.

(** The lookup on the sample registry of two stations. *)
Lemma nearest_in_sample : nearest_in Samples.registry 60 60 = inr Samples.station_east.
Proof.
  unfold nearest_in, Samples.registry, station_key. simpl.
  replace (Geo.Rltb (Geo.haversine 0 60 60 60) (Geo.haversine 60 0 60 60)) with true.
  - reflexivity.
  - symmetry. apply Rltb_true. exact haversine_sample_order.
Qed.

(** X3: when the registry sheet is read and has at least one row,
    [find_nearest_meteo_station] returns a row of the registry whose value
    [haversine(lat, lon, self.__lon, self.__lat)] is the least of all rows,
    the first such row in sheet order. *)
Theorem find_nearest_meteo_station_first_least (w : World) (df : list StationRecord)
    (lon lat : R) :
  read_excel_stations w = inr df ->
  df <> [] ->
  exists (i : nat) (st : StationRecord),
    find_nearest_meteo_station w lon lat = inr st /\
    df !! i = Some st /\
    (forall x, x ∈ df -> station_key lon lat st <= station_key lon lat x) /\
    (forall j x, (j < i)%nat -> df !! j = Some x ->
                 station_key lon lat st < station_key lon lat x).
Proof.
  intros Hread Hne. unfold find_nearest_meteo_station. rewrite Hread.
  change (inr df ≫= fun df0 => nearest_in df0 lon lat) with (nearest_in df lon lat).
  destruct (nearest_in_total df lon lat Hne) as [st Hst].
  destruct (nearest_in_first_min_key _ _ _ _ Hst) as (i & Hi & Hle & Hlt).
  exists i, st. repeat split; assumption.
Qed.

(** The registry of two stations and the site at (60, 60): the lookup
    returns the second row, whose value is the smaller one. *)
Lemma find_nearest_meteo_station_first_least_witness :
  read_excel_stations MoreSamples.world_two_stations = inr Samples.registry /\
  find_nearest_meteo_station MoreSamples.world_two_stations 60 60
  = inr Samples.station_east /\
  station_key 60 60 Samples.station_east < station_key 60 60 Samples.station_north /\
  exists (i : nat) (st : StationRecord),
    find_nearest_meteo_station MoreSamples.world_two_stations 60 60 = inr st /\
    Samples.registry !! i = Some st /\
    (forall x, x ∈ Samples.registry -> station_key 60 60 st <= station_key 60 60 x) /\
    (forall j x, (j < i)%nat -> Samples.registry !! j = Some x ->
                 station_key 60 60 st < station_key 60 60 x).
Proof.
  split; [reflexivity |]. split; [exact nearest_in_sample |].
  split; [exact haversine_sample_order |].
  apply (find_nearest_meteo_station_first_least MoreSamples.world_two_stations
           Samples.registry 60 60).
  - reflexivity.
  - discriminate.
Defined.

End Lookup.

(** ** What one archive load does to the directory *)

Section Directory.

(** One member changes at most the file it is extracted to. *)
Lemma extract_member_lookup_other (dir : string) (m : string * string)
    (fs : files) (p : string) :
  p <> Fs.target dir m.1 -> (Fs.extract_member dir m fs).2 !! p = fs !! p.
Proof.
  intros Hp. unfold Fs.extract_member. cbv zeta.
  destruct (List.find _ _); [reflexivity |].
  destruct (Fs.is_dir m.1).
  - destruct (_ && _); reflexivity.
  - destruct (_ || _); [reflexivity |]. simpl.
    apply lookup_insert_ne. congruence.
Qed.


(** A member that is extracted is a directory entry, which leaves the files
    as they are, or is written to its target. *)
Lemma extract_member_ok (dir : string) (m : string * string) (fs fs' : files) :
  Fs.extract_member dir m fs = (inr tt, fs') ->
  fs' = if Fs.is_dir m.1 then fs else <[Fs.target dir m.1 := m.2]> fs.
Proof.
  unfold Fs.extract_member. cbv zeta.
  destruct (List.find _ _); [discriminate |].
  destruct (Fs.is_dir m.1).
  - destruct (_ && _); [discriminate |]. intros [= <-]. reflexivity.
  - destruct (_ || _); [discriminate |]. intros [= <-]. reflexivity.
Qed.

Lemma extract_members_cons (dir : string) (m : string * string)
    (members : list (string * string)) (fs : files) :
  Fs.extract_members dir (m :: members) fs
  = match Fs.extract_member dir m fs with
    | (inl e, fs1) => (inl e, fs1)
    | (inr _, fs1) => Fs.extract_members dir members fs1
    end.
Proof. reflexivity. Qed.

Lemma extract_members_lookup_other (dir : string) (members : list (string * string))
    (fs : files) (p : string) :
  (forall m, m ∈ members -> p <> Fs.target dir m.1) ->
  (Fs.extract_members dir members fs).2 !! p = fs !! p.
Proof.
  revert fs. induction members as [|m members IH]; intros fs Hp; [reflexivity |].
  rewrite extract_members_cons.
  pose proof (extract_member_lookup_other dir m fs p (Hp m ltac:(left))) as Hm.
  destruct (Fs.extract_member dir m fs) as [[e | u] fs1]; simpl in Hm; [exact Hm |].
  rewrite IH; [exact Hm |]. intros m' Hm'. apply Hp. right. exact Hm'.
Qed.


(** After an extraction that went through, a path holds the bytes of the
    last member written to it, and what it held before when no member is
    written to it. *)
Lemma extract_members_written (dir : string) (members : list (string * string))
    (fs fs' : files) (p : string) :
  Fs.extract_members dir members fs = (inr tt, fs') ->
  fs' !! p = match last (written_to dir p members) with
             | Some m => Some m.2
             | None => fs !! p
             end.
Proof.
  revert fs. induction members as [|m members IH]; intros fs H.
  - injection H as <-. reflexivity.
  - rewrite extract_members_cons in H.
    destruct (Fs.extract_member dir m fs) as [[e | []] fs1] eqn:Hm; [discriminate |].
    apply extract_member_ok in Hm. rewrite (IH _ H).
    unfold written_to. cbn [List.filter].
    destruct (Fs.is_dir m.1); simpl.
    + subst fs1. reflexivity.
    + destruct (String.eqb (Fs.target dir m.1) p) eqn:E.
      * apply String.eqb_eq in E. rewrite last_cons.
        destruct (last (List.filter _ members)); [reflexivity |].
        subst fs1 p. rewrite lookup_insert_eq. reflexivity.
      * apply String.eqb_neq in E.
        destruct (last (List.filter _ members)); [reflexivity |].
        subst fs1. apply lookup_insert_ne. exact E.
Qed.

(** The load, statement by statement, without the monad. *)
Lemma load_year_cases (w : World) (st : StationRecord) (y : Z) (fs : files) :
  load_year w st y fs
  = let r := requests_get w (archive_url st y) in
    if ok r then
      let fs1 := <[zip_path st y := content r]> fs in
      match zip_members w (content r) with
      | None => (inl BadZipFile, fs1)
      | Some members =>
          match Fs.extract_members TMP_DATA_PATH members fs1 with
          | (inl e, fs2) => (inl e, fs2)
          | (inr _, fs2) =>
              match fs2 !! csv_path st y with
              | None => (inl (FileNotFoundError (csv_path st y)), fs2)
              | Some data =>
                  match csv_frame w data with
                  | None => (inl ParserError, fs2)
                  | Some raw =>
                      match select_columns raw with
                      | inl e => (inl e, fs2)
                      | inr df =>
                          match fs2 !! zip_path st y with
                          | None => (inl (FileNotFoundError (zip_path st y)), fs2)
                          | Some _ =>
                              match delete (zip_path st y) fs2 !! csv_path st y with
                              | None => (inl (FileNotFoundError (csv_path st y)),
                                         delete (zip_path st y) fs2)
                              | Some _ => (inr df, delete (csv_path st y)
                                                      (delete (zip_path st y) fs2))
                              end
                          end
                      end
                  end
              end
          end
      end
    else (inl (ValueError ("Error getting data from IMGW: Response Code "
                           +:+ str_int (status_code r))), fs).
Proof.
  cbv zeta.
  unfold load_year, Fs.write_file, Fs.extractall, Fs.read_csv, Fs.read_file, Fs.remove,
    mbind, io_bind, mret, io_ret, io_raise, io_modify, io_lift.
  destruct (ok _); [| reflexivity].
  rewrite lookup_insert_eq.
  destruct (zip_members w _) as [members |]; [| reflexivity].
  destruct (Fs.extract_members _ members _) as [[e | u] fs2]; [reflexivity |].
  destruct (fs2 !! csv_path st y) as [data |]; [| reflexivity].
  destruct (csv_frame w data) as [raw |]; [| reflexivity].
  destruct (select_columns raw) as [e | df]; [reflexivity |].
  destruct (fs2 !! zip_path st y); [| reflexivity].
  destruct (delete (zip_path st y) _ !! csv_path st y); reflexivity.
Qed.

(** X4: one archive load, however it ends, changes no file of the
    directory other than the downloaded archive, the csv it reads and the
    files the archive's members are extracted to, a member being extracted
    to the directory joined with the parts of its name that are not empty,
    [.] or [..]. *)
Theorem load_year_touches_only_its_files (w : World) (st : StationRecord) (y : Z)
    (fs : files) (p : string) :
  p <> zip_path st y ->
  p <> csv_path st y ->
  (forall members,
      zip_members w (content (requests_get w (archive_url st y))) = Some members ->
      forall m, m ∈ members -> p <> Fs.target TMP_DATA_PATH m.1) ->
  (load_year w st y fs).2 !! p = fs !! p.
Proof.
  intros Hzip Hcsv Hmem. rewrite load_year_cases. cbv zeta.
  destruct (ok _); [| reflexivity].
  assert (H1 : <[zip_path st y := content (requests_get w (archive_url st y))]> fs !! p
               = fs !! p) by (apply lookup_insert_ne; congruence).
  destruct (zip_members w _) as [members |] eqn:Hm; [| exact H1].
  specialize (Hmem members eq_refl).
  pose proof (extract_members_lookup_other TMP_DATA_PATH members
                (<[zip_path st y := content (requests_get w (archive_url st y))]> fs)
                p Hmem) as H2.
  rewrite H1 in H2.
  destruct (Fs.extract_members _ members _) as [[e | u] fs2]; simpl in H2; [exact H2 |].
  destruct (fs2 !! csv_path st y) as [data |]; [| exact H2].
  destruct (csv_frame w data) as [raw |]; [| exact H2].
  destruct (select_columns raw) as [e | df]; [exact H2 |].
  destruct (fs2 !! zip_path st y); [| exact H2].
  destruct (delete (zip_path st y) _ !! csv_path st y); simpl.
  - rewrite !lookup_delete_ne by congruence. exact H2.
  - rewrite lookup_delete_ne by congruence. exact H2.
Qed.

(** An archive with the members [../keep.txt], [./s_t_350_2019.csv], [doc/]
    and [doc/opis.txt], loaded into a directory that holds [keep.txt] and
    [other.txt]: [other.txt] is as it was, [keep.txt] is overwritten. *)
Lemma load_year_touches_only_its_files_witness :
  (load_year MoreSamples.world_dotted_member Samples.station_north 2019
     {["tmp/keep.txt" := "kept"; "tmp/other.txt" := "x"]}).2 !! "tmp/other.txt"
  = ({["tmp/keep.txt" := "kept"; "tmp/other.txt" := "x"]} : files) !! "tmp/other.txt" /\
  (load_year MoreSamples.world_dotted_member Samples.station_north 2019
     {["tmp/keep.txt" := "kept"; "tmp/other.txt" := "x"]}).2 !! "tmp/keep.txt"
  = Some "new".
Proof.
  split; [| vm_compute; reflexivity].
  apply (load_year_touches_only_its_files MoreSamples.world_dotted_member
           Samples.station_north 2019 {["tmp/keep.txt" := "kept"; "tmp/other.txt" := "x"]}
           "tmp/other.txt").
  - vm_compute. discriminate.
  - vm_compute. discriminate.
  - intros members [= <-] m Hm.
    repeat (apply elem_of_cons in Hm as [-> | Hm]; [vm_compute; discriminate |]).
    inversion Hm.
Defined.

(** X5: after a load that returns a frame, every path other than those of
    the archive and of the csv holds the bytes of the last member of the
    archive that was extracted to it, and what it held before the load when
    no member was. *)
Theorem load_year_leaves_other_members (w : World) (st : StationRecord) (y : Z)
    (fs fs' : files) (df : list WeatherObservation)
    (members : list (string * string)) (p : string) :
  load_year w st y fs = (inr df, fs') ->
  zip_members w (content (requests_get w (archive_url st y))) = Some members ->
  p <> zip_path st y ->
  p <> csv_path st y ->
  fs' !! p = match last (written_to TMP_DATA_PATH p members) with
             | Some m => Some m.2
             | None => fs !! p
             end.
Proof.
  intros Hload Hmem Hzip Hcsv. rewrite load_year_cases in Hload. cbv zeta in Hload.
  destruct (ok _); [| discriminate]. rewrite Hmem in Hload.
  destruct (Fs.extract_members _ members _) as [[e | []] fs2] eqn:Hex; [discriminate |].
  destruct (fs2 !! csv_path st y) as [data |]; [| discriminate].
  destruct (csv_frame w data) as [raw |]; [| discriminate].
  destruct (select_columns raw) as [e | df']; [discriminate |].
  destruct (fs2 !! zip_path st y); [| discriminate].
  destruct (delete (zip_path st y) _ !! csv_path st y); [| discriminate].
  injection Hload as _ <-.
  rewrite !lookup_delete_ne by congruence.
  rewrite (extract_members_written _ _ _ _ p Hex).
  destruct (last _); [reflexivity |]. apply lookup_insert_ne. congruence.
Qed.

(** The same archive and directory: [keep.txt] holds the bytes of the
    member [../keep.txt], [doc/opis.txt] those of its member, [other.txt]
    what it held. *)
Lemma load_year_leaves_other_members_witness :
  (load_year MoreSamples.world_dotted_member Samples.station_north 2019
     {["tmp/keep.txt" := "kept"; "tmp/other.txt" := "x"]}).1 = inr Samples.weather_fine /\
  written_to TMP_DATA_PATH "tmp/keep.txt"
    [("../keep.txt", "new"); ("./s_t_350_2019.csv", "rows"); ("doc/", "-");
     ("doc/opis.txt", "legend")] = [("../keep.txt", "new")] /\
  (load_year MoreSamples.world_dotted_member Samples.station_north 2019
     {["tmp/keep.txt" := "kept"; "tmp/other.txt" := "x"]}).2 !! "tmp/keep.txt"
  = Some "new".
Proof.
  assert (H1 : (load_year MoreSamples.world_dotted_member Samples.station_north 2019
                  {["tmp/keep.txt" := "kept"; "tmp/other.txt" := "x"]}).1
               = inr Samples.weather_fine) by (vm_compute; reflexivity).
  split; [exact H1 |]. split; [vm_compute; reflexivity |].
  rewrite (load_year_leaves_other_members MoreSamples.world_dotted_member
             Samples.station_north 2019 {["tmp/keep.txt" := "kept"; "tmp/other.txt" := "x"]}
             _ Samples.weather_fine
             [("../keep.txt", "new"); ("./s_t_350_2019.csv", "rows"); ("doc/", "-");
              ("doc/opis.txt", "legend")] "tmp/keep.txt").
  - vm_compute. reflexivity.
  - rewrite <- H1. apply surjective_pairing.
  - reflexivity.
  - vm_compute. discriminate.
  - vm_compute. discriminate.
Defined.



End Directory.

(** ** The download over the years, and the constructor around it *)

Section Download.

(** A loop whose body raises at some item raises there: the items before
    it have had their effect, the items after it are not run. *)
Lemma io_for_raises {S A B : Type} (body : A -> io S B) (xs ys : list A) (x : A)
    (rs : list B) (e : exn) (s s1 s2 : S) :
  io_for xs body s = (inr rs, s1) ->
  body x s1 = (inl e, s2) ->
  io_for (xs ++ x :: ys) body s = (inl e, s2).
Proof.
  revert rs s. induction xs as [|x0 xs IH]; intros rs s Hxs Hx.
  - simpl in Hxs. injection Hxs as <- <-.
    simpl. unfold mbind, io_bind. rewrite Hx. reflexivity.
  - simpl in Hxs |- *. unfold mbind, io_bind in Hxs |- *.
    destruct (body x0 s) as [[e0 | r0] s0]; [discriminate |].
    destruct (io_for xs body s0) as [[e1 | rs1] s1'] eqn:Hrec; [discriminate |].
    injection Hxs as _ <-.
    rewrite (IH rs1 s0 Hrec Hx). reflexivity.
Qed.

(** X7: the download stops at the first year whose load raises: it raises
    the same exception, the directory is as that load left it, and no later
    year is requested. *)
Theorem download_stops_at_first_failure (w : World) (hist_df : list PowerSample)
    (st : StationRecord) (before after : list Z) (y : Z)
    (dfs : list (list WeatherObservation)) (e : exn) (fs fs1 fs2 : files) :
  years hist_df = inr (before ++ y :: after) ->
  io_for before (load_year w st) fs = (inr dfs, fs1) ->
  load_year w st y fs1 = (inl e, fs2) ->
  download_hist_weather_data w hist_df st fs = (inl e, fs2).
Proof.
  intros Hyears Hbefore Hy. unfold download_hist_weather_data.
  unfold mbind at 1 2. unfold io_bind, io_lift. rewrite Hyears.
  rewrite (io_for_raises _ _ _ _ _ _ _ _ _ Hbefore Hy). reflexivity.
Qed.

(** Readings from 2018 to 2020: the archive of 2018 loads, the one of 2019
    is no archive. *)
Lemma download_stops_at_first_failure_witness :
  years MoreSamples.hist_three_years = inr ([2018] ++ 2019 :: []) /\
  download_hist_weather_data MoreSamples.world_second_year_fails
    MoreSamples.hist_three_years Samples.station_north ∅
  = (inl BadZipFile, {["tmp/2019_350_s.zip" := "<html>"]}).
Proof.
  assert (Hy : years MoreSamples.hist_three_years = inr ([2018] ++ 2019 :: []))
    by reflexivity.
  split; [exact Hy |].
  apply (download_stops_at_first_failure MoreSamples.world_second_year_fails
           MoreSamples.hist_three_years Samples.station_north [2018] [] 2019
           [[{| w_datetime := Clock.datetime 2019 12 31 23 0 0;
                clouds := Some 21%Q; wind_dir := Some 23%Q; wind_speed := Some 25%Q;
                temp := Some 29%Q; sun := Some 69%Q |}]]
           BadZipFile ∅ ∅ _ Hy).
  - vm_compute. reflexivity.
  - vm_compute. reflexivity.
Defined.

(** When the last row is not of an earlier year than the first row, there is
    no year to fetch and the download raises without a request. *)
Lemma download_nothing_to_fetch (w : World) (hist_df : list PowerSample)
    (st : StationRecord) (s0 sl : PowerSample) (fs : files) :
  hist_df !! 0%nat = Some s0 ->
  last hist_df = Some sl ->
  Clock.year (p_datetime s0) <= Clock.year (p_datetime sl) ->
  download_hist_weather_data w hist_df st fs
  = (inl (ValueError "No objects to concatenate"), fs).
Proof.
  intros H0 Hl Hle. unfold download_hist_weather_data, years, iloc, iloc_last.
  rewrite H0, Hl. simpl. unfold py_range.
  replace (Z.to_nat (Clock.year (p_datetime s0) - Clock.year (p_datetime sl))) with 0%nat by lia.
  reflexivity.
Qed.

(** X8: a sheet whose last row is not of an earlier year than its first row
    (readings of a single year, or readings in order of occurrence) cannot
    be constructed from: [__init__] raises, whatever the other arguments
    and the server are, and the directory is as it was. *)
Theorem init_needs_earlier_last_year (w : World) (name : string) (installed_power : Q)
    (cords : R * R) (path v : string) (fs : files)
    (hist_df : list PowerSample) (s0 sl : PowerSample) :
  read_excel_hist w path = inr hist_df ->
  hist_df !! 0%nat = Some s0 ->
  last hist_df = Some sl ->
  Clock.year (p_datetime s0) <= Clock.year (p_datetime sl) ->
  exists e, init w name installed_power cords path v fs = (inl e, fs).
Proof.
  intros Hread H0 Hl Hle.
  unfold init, init_attributes, hist_df_parser.
  unfold mbind at 1 2. unfold io_bind, io_lift. rewrite Hread.
  unfold mbind at 1. unfold io_bind.
  destruct (find_nearest_meteo_station w cords.1 cords.2) as [e | st].
  - exists e. reflexivity.
  - unfold mbind at 1. unfold io_bind.
    rewrite (download_nothing_to_fetch w hist_df st s0 sl fs H0 Hl Hle).
    eexists. reflexivity.
Qed.

Lemma init_needs_earlier_last_year_witness :
  exists e, init MoreSamples.world_one_year "first" (50005 # 10) (60%R, 60%R)
              HISTORICAL_POWER_DATA_PATH "wind" ∅ = (inl e, ∅).
Proof.
  apply (init_needs_earlier_last_year MoreSamples.world_one_year "first" (50005 # 10)
           (60%R, 60%R) HISTORICAL_POWER_DATA_PATH "wind" ∅ Samples.hist_one_year
           (Samples.sample (Clock.datetime 2020 6 1 0 15 0) 110)
           (Samples.sample (Clock.datetime 2020 6 1 0 0 0) 100)).
  - reflexivity.
  - reflexivity.
  - reflexivity.
  - vm_compute. discriminate.
Defined.

End Download.

(** ** Edges of the period and of the years *)

Section Edges.

Lemma total_seconds_int_bounds (d : Z) :
  Z.abs (Clock.total_seconds_int d) * Clock.NS_PER_SEC <= Z.abs d
  < (Z.abs (Clock.total_seconds_int d) + 1) * Clock.NS_PER_SEC.
Proof.
  unfold Clock.total_seconds_int, Clock.NS_PER_SEC.
  assert (E : Z.abs (d ÷ 1000000000) = Z.abs d / 1000000000).
  { rewrite <- (Z.quot_abs d 1000000000) by lia.
    replace (Z.abs 1000000000) with 1000000000 by reflexivity.
    apply Z.quot_div_nonneg; lia. }
  rewrite E.
  pose proof (Z.mul_div_le (Z.abs d) 1000000000 ltac:(lia)).
  pose proof (Z.mul_succ_div_gt (Z.abs d) 1000000000 ltac:(lia)).
  lia.
Qed.

(** X10: the period is the distance of the first two timestamps in whole
    seconds, cut towards zero, with the sign of first minus second:
    exchanging the first two rows negates it, and its size is the number
    of whole seconds in the distance. *)
Theorem sampling_period_whole_seconds (s0 s1 : PowerSample) (rest : list PowerSample) :
  exists p : Z,
    sampling_period (s0 :: s1 :: rest) = inr p /\
    sampling_period (s1 :: s0 :: rest) = inr (- p) /\
    Z.abs p * Clock.NS_PER_SEC <= Z.abs (p_datetime s0 - p_datetime s1)
    < (Z.abs p + 1) * Clock.NS_PER_SEC /\
    (0 < p <-> Clock.NS_PER_SEC <= p_datetime s0 - p_datetime s1).
Proof.
  exists (Clock.total_seconds_int (p_datetime s0 - p_datetime s1)).
  split; [reflexivity |]. split.
  - rewrite sampling_period_eq. f_equal. unfold Clock.total_seconds_int.
    rewrite <- Z.quot_opp_l by (unfold Clock.NS_PER_SEC; lia). f_equal. lia.
  - split; [apply total_seconds_int_bounds |].
    pose proof (total_seconds_int_bounds (p_datetime s0 - p_datetime s1)) as Hb.
    set (d := p_datetime s0 - p_datetime s1) in *.
    assert (Hns : 0 < Clock.NS_PER_SEC) by (unfold Clock.NS_PER_SEC; lia).
    assert (Hsign : 0 <= d -> 0 <= Clock.total_seconds_int d).
    { intros Hd. unfold Clock.total_seconds_int. apply Z.quot_pos; lia. }
    assert (Hsign' : d <= 0 -> Clock.total_seconds_int d <= 0).
    { intros Hd. unfold Clock.total_seconds_int.
      replace d with (- - d) by lia. rewrite Z.quot_opp_l by lia.
      pose proof (Z.quot_pos (- d) Clock.NS_PER_SEC ltac:(lia) Hns). lia. }
    split; intros H; nia.
Qed.

(** X11: the years fetched are the years from the year of the last row up
    to, but not including, the year of the first row, each once, in
    ascending order. *)
Theorem years_half_open_ascending (hist_df : list PowerSample) (s0 sl : PowerSample) :
  hist_df !! 0%nat = Some s0 ->
  last hist_df = Some sl ->
  exists ys : list Z,
    years hist_df = inr ys /\
    (forall y, y ∈ ys <->
               Clock.year (p_datetime sl) <= y < Clock.year (p_datetime s0)) /\
    (forall (i j : nat) (yi yj : Z),
        ys !! i = Some yi -> ys !! j = Some yj -> (i < j)%nat -> yi < yj).
Proof.
  intros H0 Hl. unfold years, iloc, iloc_last. rewrite H0, Hl. simpl.
  eexists. split; [reflexivity |]. split.
  - intros y. apply elem_of_py_range.
  - unfold py_range. intros i j yi yj Hi Hj Hij.
    rewrite list_lookup_fmap in Hi, Hj.
    destruct (seq _ _ !! i) as [ki |] eqn:Hki; [| discriminate].
    destruct (seq _ _ !! j) as [kj |] eqn:Hkj; [| discriminate].
    apply lookup_seq in Hki as [-> _]. apply lookup_seq in Hkj as [-> _].
    simpl in Hi, Hj. injection Hi as <-. injection Hj as <-. lia.
Qed.

Lemma years_half_open_ascending_witness :
  exists ys : list Z,
    years MoreSamples.hist_three_years = inr ys /\
    (forall y, y ∈ ys <->
               Clock.year (Clock.datetime 2018 12 31 23 45 0) <= y
               < Clock.year (Clock.datetime 2020 1 1 0 0 0)) /\
    (forall (i j : nat) (yi yj : Z),
        ys !! i = Some yi -> ys !! j = Some yj -> (i < j)%nat -> yi < yj).
Proof.
  apply (years_half_open_ascending MoreSamples.hist_three_years
           (Samples.sample (Clock.datetime 2020 1 1 0 0 0) 120)
           (Samples.sample (Clock.datetime 2018 12 31 23 45 0) 100)).
  - reflexivity.
  - reflexivity.
Defined.

End Edges.

(** ** Where a fused row comes from *)

Section Provenance.

Lemma merge_pair_rows (left : list PowerSample) (right : list WeatherObservation)
    (s : PowerSample) (r : WeatherObservation) :
  (s, r) ∈ Pandas.merge left right ->
  s ∈ left /\ r ∈ right /\ w_datetime r = p_datetime s.
Proof.
  unfold Pandas.merge. rewrite list_elem_of_In, in_flat_map.
  intros (s' & Hs' & Hin). apply in_map_iff in Hin as (r' & [= <- <-] & Hr).
  apply filter_In in Hr as [Hr Hk].
  split; [apply list_elem_of_In; exact Hs' |].
  split; [apply list_elem_of_In; exact Hr | lia].
Qed.

(** X12: every row of the table [data_collector] returns joins a reading of
    the sheet with the row of the resampled weather that has the same
    timestamp: it carries the timestamp and power of the reading, the five
    weather cells of that row, and the [res_type], name and installed power
    of the object. *)
Theorem fused_row_joins_reading_and_weather (self : RESMeasuringPoint)
    (out : list FusedRecord) (row : FusedRecord) :
  data_collector self = inr out ->
  row ∈ out ->
  exists (period : Z) (aligned : list WeatherObservation)
         (s : PowerSample) (r : WeatherObservation),
    sampling_period (self_hist_df self) = inr period /\
    Pandas.resample_interpolate period (self_weather self) = inr aligned /\
    s ∈ self_hist_df self /\ r ∈ aligned /\ w_datetime r = p_datetime s /\
    f_datetime row = p_datetime s /\ f_power row = power s /\
    (forall f, cell f r
               = match f with
                 | Clouds => f_clouds row
                 | WindDir => f_wind_dir row
                 | WindSpeed => f_wind_speed row
                 | Temp => f_temp row
                 | Sun => f_sun row
                 end) /\
    res_type self = inr (f_res_type row) /\
    f_name row = self_name self /\
    f_installed_power row = self_installed_power self.
Proof.
  unfold data_collector. intros H Hrow.
  destruct (sampling_period (self_hist_df self)) as [e | period]; [discriminate |].
  simpl in H.
  destruct (Pandas.resample_interpolate period (self_weather self)) as [e | aligned] eqn:Hal;
    [discriminate |].
  simpl in H. destruct (res_type self) as [e | rt]; [discriminate |].
  simpl in H. injection H as <-.
  apply list_elem_of_fmap in Hrow as ([s r] & -> & Hpair).
  apply merge_pair_rows in Hpair as (Hs & Hr & Hkey).
  exists period, aligned, s, r.
  split_and!; first [reflexivity | assumption].
Qed.

Lemma fused_row_joins_reading_and_weather_witness :
  data_collector Samples.point = inr Samples.fused_point /\
  exists (period : Z) (aligned : list WeatherObservation)
         (s : PowerSample) (r : WeatherObservation),
    sampling_period (self_hist_df Samples.point) = inr period /\
    Pandas.resample_interpolate period (self_weather Samples.point) = inr aligned /\
    s ∈ self_hist_df Samples.point /\ r ∈ aligned /\ w_datetime r = p_datetime s /\
    Clock.datetime 2020 6 1 0 0 0 = p_datetime s /\ 100%Q = power s /\
    (forall f, cell f r
               = match f with
                 | Clouds => Some 50%Q
                 | _ => None
                 end) /\
    res_type Samples.point = inr "wind" /\
    "first" = self_name Samples.point /\
    (50005 # 10)%Q = self_installed_power Samples.point.
Proof.
  assert (H : data_collector Samples.point = inr Samples.fused_point) by reflexivity.
  split; [exact H |].
  destruct (fused_row_joins_reading_and_weather Samples.point Samples.fused_point
              {| f_datetime := Clock.datetime 2020 6 1 0 0 0; f_power := 100;
                 f_clouds := Some 50%Q; f_wind_dir := None; f_wind_speed := None;
                 f_temp := None; f_sun := None;
                 f_res_type := "wind"; f_name := "first";
                 f_installed_power := 50005 # 10 |} H)
    as (period & aligned & s & r & H1 & H2 & H3 & H4 & H5 & H6 & H7 & H8 & H9 & H10 & H11).
  - left.
  - exists period, aligned, s, r. split_and!; assumption.
Defined.

End Provenance.

(** ** The [res_type] of an object over its life *)

Section Lifetime.

Lemma with_res_type_twice (v v' : string) (self : RESMeasuringPoint) :
  with_res_type v' (with_res_type v self) = with_res_type v' self.
Proof. reflexivity. Qed.

Lemma setter_state (v : string) (self : RESMeasuringPoint) :
  (res_type_setter v self).2 = if allowed v then with_res_type v self else self.
Proof.
  unfold res_type_setter, allowed. destruct (not_in_wind_pv v); reflexivity.
Qed.

Lemma assign_each_last_allowed (vs : list string) (self : RESMeasuringPoint) :
  assign_each vs self
  = match last (List.filter allowed vs) with
    | Some v => with_res_type v self
    | None => self
    end.
Proof.
  unfold assign_each. revert self.
  induction vs as [|v vs IH]; intros self; [reflexivity |].
  cbn [foldl List.filter]. rewrite IH, setter_state.
  destruct (allowed v); [| reflexivity].
  rewrite last_cons. destruct (last (List.filter allowed vs)); reflexivity.
Qed.

(** X13: whatever values a caller assigns to [res_type] and in whatever
    order, catching the refusals, the object ends with the last value
    among them that is 'wind' or 'pv' (with its old value when there is
    none) and with every other attribute as it was; so a [res_type] that
    was 'wind' or 'pv' is 'wind' or 'pv' ever after. *)
Theorem res_type_is_last_allowed_assignment (vs : list string) (self : RESMeasuringPoint) :
  self_res_type (assign_each vs self)
  = match last (List.filter allowed vs) with
    | Some v => Some v
    | None => self_res_type self
    end /\
  (self_name (assign_each vs self) = self_name self /\
   self_installed_power (assign_each vs self) = self_installed_power self /\
   self_hist_data_path (assign_each vs self) = self_hist_data_path self /\
   self_hist_df (assign_each vs self) = self_hist_df self /\
   self_lon (assign_each vs self) = self_lon self /\
   self_lat (assign_each vs self) = self_lat self /\
   self_meteo_code (assign_each vs self) = self_meteo_code self /\
   self_weather (assign_each vs self) = self_weather self) /\
  ((exists v0, self_res_type self = Some v0 /\ (v0 = "wind" \/ v0 = "pv")) ->
   exists v, res_type (assign_each vs self) = inr v /\ (v = "wind" \/ v = "pv")).
Proof.
  rewrite assign_each_last_allowed.
  destruct (last (List.filter allowed vs)) as [v |] eqn:Hlast.
  - split; [reflexivity |]. split; [repeat split |].
    intros _. exists v. split; [reflexivity |].
    apply last_Some in Hlast as [l' Hl'].
    assert (Hin : In v (List.filter allowed vs)).
    { rewrite Hl'. apply in_or_app. right. left. reflexivity. }
    apply filter_In in Hin as [_ Hv]. unfold allowed in Hv.
    apply negb_true_iff in Hv. apply not_in_wind_pv_false. exact Hv.
  - split; [reflexivity |]. split; [repeat split |].
    intros (v0 & Hv0 & Hvalid). exists v0. unfold res_type. rewrite Hv0.
    split; [reflexivity | exact Hvalid].
Qed.

(** Assigning 'solar', 'pv', 'hydro' in turn to the sample object. *)
Lemma res_type_is_last_allowed_assignment_witness :
  self_res_type (assign_each ["solar"; "pv"; "hydro"] Samples.point) = Some "pv" /\
  exists v, res_type (assign_each ["solar"; "pv"; "hydro"] Samples.point) = inr v /\
            (v = "wind" \/ v = "pv").
Proof.
  destruct (res_type_is_last_allowed_assignment ["solar"; "pv"; "hydro"] Samples.point)
    as (H1 & _ & H3).
  split; [exact H1 |].
  apply H3. exists "wind". split; [reflexivity | left; reflexivity].
Defined.

End Lifetime.

(** ** What the constructor leaves behind *)

Section Constructor.

(** [__init__] up to the assignment of the weather, statement by statement. *)
Lemma init_attributes_cases (w : World) (name : string) (installed_power : Q)
    (cords : R * R) (path : string) (fs : files) :
  init_attributes w name installed_power cords path fs
  = match read_excel_hist w path with
    | inl e => (inl e, fs)
    | inr hist_df =>
        match find_nearest_meteo_station w cords.1 cords.2 with
        | inl e => (inl e, fs)
        | inr st =>
            match download_hist_weather_data w hist_df st fs with
            | (inl e, fs') => (inl e, fs')
            | (inr weather, fs') =>
                (inr {| self_name := name;
                        self_installed_power := installed_power;
                        self_hist_data_path := path;
                        self_hist_df := hist_df;
                        self_lon := cords.1;
                        self_lat := cords.2;
                        self_meteo_code := st;
                        self_weather := weather;
                        self_res_type := None |}, fs')
            end
        end
    end.
Proof.
  unfold init_attributes, hist_df_parser, mbind, io_bind, io_lift, mret, io_ret.
  destruct (read_excel_hist w path) as [e | hist_df]; [reflexivity |].
  destruct (find_nearest_meteo_station w cords.1 cords.2) as [e | st]; [reflexivity |].
  destruct (download_hist_weather_data w hist_df st fs) as [[e | weather] fs']; reflexivity.
Qed.

Lemma io_for_length {S A B : Type} (body : A -> io S B) (xs : list A)
    (rs : list B) (s s' : S) :
  io_for xs body s = (inr rs, s') -> length rs = length xs.
Proof.
  revert rs s s'. induction xs as [|x xs IH]; intros rs s s' H; simpl in H.
  - injection H as <- _. reflexivity.
  - unfold mbind, io_bind in H.
    destruct (body x s) as [[e | r] s0]; [discriminate |].
    destruct (io_for xs body s0) as [[e | rs0] s1] eqn:Hrec; [discriminate |].
    injection H as <- _. simpl. f_equal. exact (IH _ _ _ Hrec).
Qed.

(** A download that returns has fetched at least one year. *)
Lemma download_returns_spans_years (w : World) (hist_df : list PowerSample)
    (st : StationRecord) (fs fs' : files) (weather : list WeatherObservation) :
  download_hist_weather_data w hist_df st fs = (inr weather, fs') ->
  exists s0 sl, hist_df !! 0%nat = Some s0 /\ last hist_df = Some sl /\
                Clock.year (p_datetime sl) < Clock.year (p_datetime s0).
Proof.
  unfold download_hist_weather_data. unfold mbind at 1 2. unfold io_bind, io_lift.
  unfold years, iloc, iloc_last.
  destruct (last hist_df) as [sl |]; [| discriminate].
  destruct (hist_df !! 0%nat) as [s0 |]; [| discriminate].
  cbn [mbind result_bind mret result_ret].
  destruct (io_for _ _ fs) as [[e | dfs] fs1] eqn:Hfor; [discriminate |].
  intros H. exists s0, sl. split; [reflexivity |]. split; [reflexivity |].
  apply io_for_length in Hfor.
  destruct dfs as [|df dfs]; [discriminate |].
  unfold py_range in Hfor. rewrite length_map, length_seq in Hfor. simpl in Hfor. lia.
Qed.

(** X14: an object [__init__] returns holds the name, installed power, path
    and coordinates it was given, the sheet read from the path, the station
    the lookup returned for these coordinates, the weather the download
    returned for that sheet and station, and the [res_type] it was given,
    which is 'wind' or 'pv'; and the last row of its sheet is of an earlier
    year than the first. *)
Theorem init_returns_consistent_object (w : World) (name : string) (installed_power : Q)
    (cords : R * R) (path v : string) (fs fs' : files) (self : RESMeasuringPoint) :
  init w name installed_power cords path v fs = (inr self, fs') ->
  (self_name self = name /\ self_installed_power self = installed_power /\
   self_hist_data_path self = path /\
   self_lon self = cords.1 /\ self_lat self = cords.2) /\
  read_excel_hist w path = inr (self_hist_df self) /\
  find_nearest_meteo_station w cords.1 cords.2 = inr (self_meteo_code self) /\
  download_hist_weather_data w (self_hist_df self) (self_meteo_code self) fs
  = (inr (get_weather self), fs') /\
  (res_type self = inr v /\ (v = "wind" \/ v = "pv")) /\
  (exists s0 sl, self_hist_df self !! 0%nat = Some s0 /\
                 last (self_hist_df self) = Some sl /\
                 Clock.year (p_datetime sl) < Clock.year (p_datetime s0)).
Proof.
  rewrite init_unfold, init_attributes_cases.
  destruct (read_excel_hist w path) as [e | hist_df]; [discriminate |].
  destruct (find_nearest_meteo_station w cords.1 cords.2) as [e | st]; [discriminate |].
  destruct (download_hist_weather_data w hist_df st fs) as [[e | weather] fs1] eqn:Hdl;
    [discriminate |].
  destruct (not_in_wind_pv v) eqn:Hv; [discriminate |].
  intros [= <- <-]. simpl.
  split; [repeat split |]. split; [reflexivity |]. split; [reflexivity |].
  split; [exact Hdl |].
  split; [split; [reflexivity | apply not_in_wind_pv_false; exact Hv] |].
  exact (download_returns_spans_years _ _ _ _ _ _ Hdl).
Qed.

Lemma init_returns_consistent_object_witness :
  init Samples.world_fine "first" (50005 # 10) (60%R, 60%R)
    HISTORICAL_POWER_DATA_PATH "pv" ∅
  = (inr (with_res_type "pv" Samples.attributes_fine), ∅) /\
  res_type (with_res_type "pv" Samples.attributes_fine) = inr "pv" /\
  find_nearest_meteo_station Samples.world_fine 60 60 = inr Samples.station_north.
Proof.
  assert (H : init Samples.world_fine "first" (50005 # 10) (60%R, 60%R)
                HISTORICAL_POWER_DATA_PATH "pv" ∅
              = (inr (with_res_type "pv" Samples.attributes_fine), ∅)) by reflexivity.
  split; [exact H |].
  destruct (init_returns_consistent_object _ _ _ _ _ _ _ _ _ H)
    as (_ & _ & Hst & _ & [Hrt _] & _).
  split; [exact Hrt | exact Hst].
Defined.

(** X15: [__init__] raises before any request is made, and leaves the
    directory as it was, when the sheet cannot be read (the reader's
    exception), when the registry has no row ([ValueError]), and when the
    sheet has no row ([IndexError]). *)
Theorem init_raises_before_download (w : World) (name : string) (installed_power : Q)
    (cords : R * R) (path v : string) (fs : files) :
  (forall e, read_excel_hist w path = inl e ->
             init w name installed_power cords path v fs = (inl e, fs)) /\
  (forall hist_df, read_excel_hist w path = inr hist_df ->
                   read_excel_stations w = inr [] ->
                   init w name installed_power cords path v fs
                   = (inl (ValueError "attempt to get argmin of an empty sequence"), fs)) /\
  (forall st, read_excel_hist w path = inr [] ->
              find_nearest_meteo_station w cords.1 cords.2 = inr st ->
              init w name installed_power cords path v fs = (inl IndexError, fs)).
Proof.
  split; [| split].
  - intros e He. rewrite init_unfold, init_attributes_cases, He. reflexivity.
  - intros hist_df Hh Hreg. rewrite init_unfold, init_attributes_cases, Hh.
    unfold find_nearest_meteo_station. rewrite Hreg. reflexivity.
  - intros st Hh Hst. rewrite init_unfold, init_attributes_cases, Hh, Hst. reflexivity.
Qed.

Lemma init_raises_before_download_witness :
  init MoreSamples.world_no_sheet "first" (50005 # 10) (60%R, 60%R)
    HISTORICAL_POWER_DATA_PATH "wind" ∅
  = (inl (FileNotFoundError HISTORICAL_POWER_DATA_PATH), ∅) /\
  init MoreSamples.world_no_station "first" (50005 # 10) (60%R, 60%R)
    HISTORICAL_POWER_DATA_PATH "wind" ∅
  = (inl (ValueError "attempt to get argmin of an empty sequence"), ∅).
Proof.
  split.
  - apply (init_raises_before_download MoreSamples.world_no_sheet). reflexivity.
  - eapply (init_raises_before_download MoreSamples.world_no_station); reflexivity.
Defined.

(** X9: an object [__init__] returns holds at least two readings, its
    first and its last row being of different years; so on such an object
    [data_collector] always gets a period from the first two rows, finds
    the [res_type] assigned, and raises only what the resampling of the
    weather raises. *)
Theorem constructed_object_has_two_readings (w : World) (name : string)
    (installed_power : Q) (cords : R * R) (path v : string) (fs fs' : files)
    (self : RESMeasuringPoint) :
  init w name installed_power cords path v fs = (inr self, fs') ->
  exists (s0 s1 : PowerSample) (rest : list PowerSample),
    self_hist_df self = s0 :: s1 :: rest /\
    sampling_period (self_hist_df self)
    = inr (Clock.total_seconds_int (p_datetime s0 - p_datetime s1)) /\
    (forall e, data_collector self = inl e ->
               Pandas.resample_interpolate
                 (Clock.total_seconds_int (p_datetime s0 - p_datetime s1))
                 (self_weather self) = inl e).
Proof.
  rewrite init_unfold, init_attributes_cases.
  destruct (read_excel_hist w path) as [e | hist_df]; [discriminate |].
  destruct (find_nearest_meteo_station w cords.1 cords.2) as [e | st]; [discriminate |].
  destruct (download_hist_weather_data w hist_df st fs) as [[e | weather] fs1] eqn:Hdl;
    [discriminate |].
  destruct (not_in_wind_pv v); [discriminate |].
  intros [= <- <-].
  apply download_returns_spans_years in Hdl as (s0 & sl & H0 & Hl & Hy).
  destruct hist_df as [|a [|b rest]]; [discriminate | |].
  - simpl in H0, Hl. injection H0 as <-. injection Hl as <-. lia.
  - simpl in H0. injection H0 as <-.
    exists a, b, rest. split; [reflexivity |]. split; [reflexivity |].
    intros e. unfold data_collector. cbn [self_hist_df with_res_type self_weather].
    rewrite sampling_period_eq. cbn [mbind result_bind].
    destruct (Pandas.resample_interpolate _ weather) as [e' | aligned];
      [intros [= <-]; reflexivity | discriminate].
Qed.

(** The object of the sample world: its two readings are a quarter of an
    hour apart. *)
Lemma constructed_object_has_two_readings_witness :
  init Samples.world_fine "first" (50005 # 10) (60%R, 60%R)
    HISTORICAL_POWER_DATA_PATH "pv" ∅
  = (inr (with_res_type "pv" Samples.attributes_fine), ∅) /\
  exists (s0 s1 : PowerSample) (rest : list PowerSample),
    Samples.hist_latest_first = s0 :: s1 :: rest /\
    sampling_period Samples.hist_latest_first
    = inr (Clock.total_seconds_int (p_datetime s0 - p_datetime s1)) /\
    (forall e, data_collector (with_res_type "pv" Samples.attributes_fine) = inl e ->
               Pandas.resample_interpolate
                 (Clock.total_seconds_int (p_datetime s0 - p_datetime s1))
                 Samples.weather_fine = inl e).
Proof.
  assert (H : init Samples.world_fine "first" (50005 # 10) (60%R, 60%R)
                HISTORICAL_POWER_DATA_PATH "pv" ∅
              = (inr (with_res_type "pv" Samples.attributes_fine), ∅)) by reflexivity.
  split; [exact H |].
  exact (constructed_object_has_two_readings _ _ _ _ _ _ _ _ _ H).
Defined.

End Constructor.

(** ** The labels of the resampled weather *)

Section Labels.

(** X16: the rows of the resampled weather are one period apart, and every
    original observation falls into the period that starts at one of them:
    the resampled table covers all the observations it was given. *)
Theorem resample_rows_evenly_cover (n : Z) (df out : list WeatherObservation) :
  Pandas.resample_interpolate n df = inr out ->
  (forall (i : nat) (r r' : WeatherObservation),
      out !! i = Some r -> out !! S i = Some r' ->
      w_datetime r' = w_datetime r + Clock.seconds n) /\
  (forall o, o ∈ df ->
             exists (i : nat) (r : WeatherObservation),
               out !! i = Some r /\
               w_datetime r <= w_datetime o < w_datetime r + Clock.seconds n).
Proof.
  intros Hout. pose proof (resample_interpolate_inr _ _ _ Hout) as (Hn & _).
  apply seconds_pos in Hn. split.
  - intros i r r' Hr Hr'.
    pose proof (resample_lookup_label _ _ _ _ _ Hout Hr) as Hg.
    pose proof (resample_lookup_label _ _ _ _ _ Hout Hr') as Hg'.
    destruct (map w_datetime (Pandas.sort_index df)) as [|t0 ts]; [discriminate |].
    apply grid_lookup_iff in Hg as [-> _]. apply grid_lookup_iff in Hg' as [-> _]. lia.
  - intros o Ho. apply elem_of_sort_index in Ho.
    assert (Hin : w_datetime o ∈ map w_datetime (Pandas.sort_index df))
      by (apply list_elem_of_fmap_2; exact Ho).
    pose proof (resample_labels _ _ _ Hout) as Hlabels.
    destruct (map w_datetime (Pandas.sort_index df)) as [|t0 ts] eqn:Hts; [inversion Hin |].
    set (lo := foldr Z.min t0 ts) in *. set (hi := foldr Z.max t0 ts) in *.
    set (freq := Clock.seconds n) in *.
    set (first := lo - (lo - Clock.normalize lo) mod freq).
    assert (Hlo : lo <= w_datetime o <= hi).
    { destruct (foldr_min_le t0 ts) as [Hm0 Hm]. destruct (foldr_max_ge t0 ts) as [HM0 HM].
      rewrite Forall_forall in Hm, HM.
      apply elem_of_cons in Hin as [-> | Hin]; [fold lo hi in Hm0, HM0; lia |].
      specialize (Hm _ Hin). specialize (HM _ Hin). fold lo hi in Hm, HM. lia. }
    pose proof (Z.mod_pos_bound (lo - Clock.normalize lo) freq Hn) as Hmod.
    assert (Hfirst : first <= lo) by (unfold first; lia).
    set (k := (w_datetime o - first) / freq).
    assert (Hk0 : 0 <= k) by (apply Z.div_pos; lia).
    assert (Hkle : k <= (hi - first) / freq) by (apply Z.div_le_mono; lia).
    pose proof (Z.mul_div_le (w_datetime o - first) freq Hn) as Hk1.
    pose proof (Z.mul_succ_div_gt (w_datetime o - first) freq Hn) as Hk2.
    fold k in Hk1, Hk2.
    assert (Hg : Pandas.grid freq (t0 :: ts) !! Z.to_nat k
                 = Some (first + Z.of_nat (Z.to_nat k) * freq)).
    { apply grid_lookup_iff. split; [reflexivity |]. fold lo hi first. lia. }
    rewrite <- Hlabels, list_lookup_fmap in Hg.
    destruct (out !! Z.to_nat k) as [r |] eqn:Hr; [| discriminate].
    simpl in Hg. injection Hg as Hg.
    exists (Z.to_nat k), r. split; [exact Hr |]. rewrite Hg. nia.
Qed.

Lemma resample_rows_evenly_cover_witness :
  Pandas.resample_interpolate 900 Samples.weather_off_grid
  = inr [Pandas.nan_row (Clock.datetime 2020 6 1 0 0 0);
         Pandas.nan_row (Clock.datetime 2020 6 1 0 15 0)] /\
  exists (i : nat) (r : WeatherObservation),
    [Pandas.nan_row (Clock.datetime 2020 6 1 0 0 0);
     Pandas.nan_row (Clock.datetime 2020 6 1 0 15 0)] !! i = Some r /\
    w_datetime r <= Clock.datetime 2020 6 1 0 16 40 < w_datetime r + Clock.seconds 900.
Proof.
  assert (H : Pandas.resample_interpolate 900 Samples.weather_off_grid
              = inr [Pandas.nan_row (Clock.datetime 2020 6 1 0 0 0);
                     Pandas.nan_row (Clock.datetime 2020 6 1 0 15 0)])
    by (vm_compute; reflexivity).
  split; [exact H |].
  destruct (resample_rows_evenly_cover _ _ _ H) as [_ Hcover].
  apply (Hcover (Samples.obs (Clock.datetime 2020 6 1 0 16 40) (Some 70%Q))).
  right. left.
Defined.

End Labels.

(** ** The values put between two observations *)

Section Between.

Lemma next_valid_gap (m : nat) (b : Q) (post : list (option Q)) :
  Pandas.next_valid (repeat None m ++ Some b :: post) = Some (m, b).
Proof. induction m as [|m IH]; simpl; [reflexivity | rewrite IH; reflexivity]. Qed.

Lemma interpolate_from_gap (a b : Q) (back m j : nat) (post : list (option Q)) :
  (j < m)%nat ->
  Pandas.interpolate_from (Some (a, back)) (repeat None m ++ Some b :: post) !! j
  = Some (Some (Pandas.lerp a b (back + j) (back + m))).
Proof.
  revert back j. induction m as [|m IH]; intros back j Hj; [lia |].
  cbn [repeat app Pandas.interpolate_from]. rewrite next_valid_gap.
  destruct j as [|j].
  - simpl. rewrite Nat.add_0_r. reflexivity.
  - cbn [lookup list_lookup]. rewrite IH by lia.
    replace (S back + j)%nat with (back + S j)%nat by lia.
    replace (S back + m)%nat with (back + S m)%nat by lia. reflexivity.
Qed.

Lemma interpolate_from_prefix (prev : option (Q * nat)) (pre : list (option Q))
    (a : Q) (rest : list (option Q)) :
  exists xs, length xs = length pre /\
    Pandas.interpolate_from prev (pre ++ Some a :: rest)
    = xs ++ Some a :: Pandas.interpolate_from (Some (a, 1%nat)) rest.
Proof.
  revert prev. induction pre as [|c pre IH]; intros prev.
  - exists []. split; reflexivity.
  - destruct c as [v |]; cbn [app Pandas.interpolate_from].
    + destruct (IH (Some (v, 1%nat))) as (xs & Hlen & ->).
      eexists (_ :: xs). split; [simpl; congruence | reflexivity].
    + match goal with |- context [Pandas.interpolate_from ?p (pre ++ _)] =>
        destruct (IH p) as (xs & Hlen & ->) end.
      eexists (_ :: xs). split; [simpl; congruence | reflexivity].
Qed.

Lemma Zpos_of_nat_S (n : nat) : Z.pos (Pos.of_nat (S n)) = Z.of_nat (S n).
Proof. rewrite <- Pos.of_nat_succ. lia. Qed.

Lemma lerp_value (a b : Q) (k n : nat) :
  (Pandas.lerp a b k (S n) == a + (b - a) * (Z.of_nat k # Pos.of_nat (S n)))%Q.
Proof. unfold Pandas.lerp. apply Qred_correct. Qed.

Lemma lerp_between (a b : Q) (k n : nat) :
  (k <= S n)%nat -> (a <= b)%Q ->
  (a <= Pandas.lerp a b k (S n))%Q /\ (Pandas.lerp a b k (S n) <= b)%Q.
Proof.
  intros Hk Hab. rewrite !lerp_value.
  set (q := (Z.of_nat k # Pos.of_nat (S n))%Q).
  assert (Hq0 : (0 <= q)%Q).
  { unfold q, Qle. simpl. lia. }
  assert (Hq1 : (q <= 1)%Q).
  { unfold q, Qle. cbn [Qnum Qden]. rewrite Zpos_of_nat_S. lia. }
  clearbody q. split; Lqa.nra.
Qed.

(** X17: in a weather column, the cells without a value between two
    observed values are filled along the straight line through the two: the
    cell [j] rows after the value [a], of [m] such cells before the value
    [b], gets [a + (b - a) * j / (m + 1)], which lies between [a] and [b]. *)
Theorem interpolate_fills_along_line (pre post : list (option Q)) (a b : Q) (m j : nat) :
  (j < m)%nat ->
  Pandas.interpolate_1d (pre ++ Some a :: repeat None m ++ Some b :: post)
    !! (length pre + S j)%nat
  = Some (Some (Pandas.lerp a b (S j) (S m))) /\
  (Pandas.lerp a b (S j) (S m)
   == a + (b - a) * (Z.of_nat (S j) # Pos.of_nat (S m)))%Q /\
  ((a <= b)%Q ->
   (a <= Pandas.lerp a b (S j) (S m))%Q /\ (Pandas.lerp a b (S j) (S m) <= b)%Q).
Proof.
  intros Hj. split; [| split].
  - unfold Pandas.interpolate_1d.
    destruct (interpolate_from_prefix None pre a (repeat None m ++ Some b :: post))
      as (xs & Hlen & ->).
    rewrite lookup_app_r by lia.
    replace (length pre + S j - length xs)%nat with (S j) by lia.
    cbn [lookup list_lookup]. rewrite interpolate_from_gap by exact Hj. reflexivity.
  - apply lerp_value.
  - intros Hab. apply lerp_between; [lia | exact Hab].
Qed.

(** Clouds 50 and 70 with one cell between them: the cell gets 60. *)
Lemma interpolate_fills_along_line_witness :
  Pandas.interpolate_1d [Some 50%Q; None; Some 70%Q] !! 1%nat
  = Some (Some (Pandas.lerp 50 70 1 2)) /\
  Pandas.lerp 50 70 1 2 = 60%Q.
Proof.
  split; [| reflexivity].
  apply (interpolate_fills_along_line [] [] 50%Q 70%Q 1 0). lia.
Defined.

End Between.
